(** * rpi-ft5406: memory based FT5406 touchscreen driver

    A shallow embedding of [drivers/input/touchscreen/rpi-ft5406.c]: the
    polling thread [ft5406_thread] (one iteration of its loop is
    [ft5406_cycle]), the sysfs attribute [enable_show] / [enable_store],
    [ft5406_probe] and [ft5406_remove]; and of the rate and PLL handling of
    [sound/soc/bcm/iqaudio-codec.c].

    Conventions.
    - C integers are [Z].  Every value the thread computes stays far inside
      the range of [int]: coordinates are 12 bit, touch ids 4 bit, the screen
      size 16 bit, so no wrap-around is ever reached and none is modelled.
    - The calls the driver makes on the input core are recorded, in order, as
      a list of [input_call].  [dev_dbg] output is not part of the model.
    - [regs.point] is an array of [MAXIMUM_SUPPORTED_POINTS] records; it is a
      list here, and reading an index outside of it has no defined result in
      C: the embedding returns [None] for the whole iteration. *)

From Stdlib Require Import ZArith List Bool Lia Sorted.
Import ListNotations.
Local Open Scope Z_scope.

(** ** Data *)

Definition MAXIMUM_SUPPORTED_POINTS : Z := 10.
Definition FTS_TOUCH_DOWN : Z := 0.
Definition FTS_TOUCH_UP : Z := 1.
Definition FTS_TOUCH_CONTACT : Z := 2.

(** [struct ft5406_touch]: six [uint8_t].  The decoding masks every field
    it uses, and no result below depends on the fields being in range. *)
Record ft5406_touch : Type := mk_touch {
  xh : Z;
  xl : Z;
  yh : Z;
  yl : Z;
  pressure : Z;
  area : Z
}.

(** [struct ft5406_regs]. *)
Record ft5406_regs : Type := mk_regs {
  device_mode : Z;
  gesture_id : Z;
  num_points : Z;
  point : list ft5406_touch
}.

(** What [kthread_run] hands back: a task, or an [ERR_PTR]. *)
Inductive task_struct : Type :=
| task (pid : Z)
| ERR_PTR (errno : Z).

Definition IS_ERR (t : task_struct) : bool :=
  match t with
  | task _ => false
  | ERR_PTR _ => true
  end.

(** [struct ft5406], without the device, buffer and mutex handles.  The three
    orientation flags are [uint8_t] and are tested for being non-zero. *)
Record ft5406 : Type := mk_ft5406 {
  thread : task_struct;
  enable : bool;
  max_x : Z;
  max_y : Z;
  hflip : Z;
  vflip : Z;
  xyswap : Z
}.

Inductive mt_tool : Type := MT_TOOL_FINGER.
Inductive abs_code : Type := ABS_MT_POSITION_X | ABS_MT_POSITION_Y.

(** The calls made on [ts->input_dev]. *)
Inductive input_call : Type :=
| input_mt_slot (slot : Z)
| input_mt_report_slot_state (tool : mt_tool) (active : bool)
| input_report_abs (code : abs_code) (value : Z)
| input_mt_report_pointer_emulation (use_count : bool)
| input_sync.

(** ** Decoding one point record (lines 99-104) *)

Definition ID_TO_BIT (a : Z) : Z := Z.shiftl 1 a.

Definition point_x (p : ft5406_touch) : Z :=
  Z.shiftl (Z.land (xh p) 0xf) 8 + xl p.

Definition point_y (p : ft5406_touch) : Z :=
  Z.shiftl (Z.land (yh p) 0xf) 8 + yl p.

Definition point_touchid (p : ft5406_touch) : Z :=
  Z.land (Z.shiftr (yh p) 4) 0xf.

Definition point_event_type (p : ft5406_touch) : Z :=
  Z.land (Z.shiftr (xh p) 6) 0x03.

(** ** Orientation (lines 110-117) *)

Definition transform (ts : ft5406) (x y : Z) : Z * Z :=
  let x := if hflip ts =? 0 then x else max_x ts - 1 - x in
  let y := if vflip ts =? 0 then y else max_y ts - 1 - y in
  if xyswap ts =? 0 then (x, y) else (y, x).

(** ** The body of the point loop (lines 99-136)

    Takes [modified_ids] as it stands and returns it updated, together with
    the calls made for this record. *)

Definition report_point (ts : ft5406) (p : ft5406_touch) (modified_ids : Z)
  : Z * list input_call :=
  let touchid := point_touchid p in
  let event_type := point_event_type p in
  let modified_ids := Z.lor modified_ids (ID_TO_BIT touchid) in
  if (event_type =? FTS_TOUCH_DOWN) || (event_type =? FTS_TOUCH_CONTACT)
  then
    let '(x, y) := transform ts (point_x p) (point_y p) in
    (modified_ids,
     [ input_mt_slot touchid;
       input_mt_report_slot_state MT_TOOL_FINGER true;
       input_report_abs ABS_MT_POSITION_X x;
       input_report_abs ABS_MT_POSITION_Y y ])
  else (modified_ids, []).

(** [for (i = 0; i < regs.num_points; i++)]: [todo] is the number of
    iterations still to run, [i] the index of the next one. *)
Fixpoint point_loop (ts : ft5406) (pts : list ft5406_touch) (todo i : nat)
  (modified_ids : Z) (out : list input_call) : option (Z * list input_call) :=
  match todo with
  | O => Some (modified_ids, out)
  | S todo' =>
      match nth_error pts i with
      | None => None
      | Some p =>
          let '(modified_ids', calls) := report_point ts p modified_ids in
          point_loop ts pts todo' (S i) modified_ids' (out ++ calls)
      end
  end.

(** ** The release loop (lines 140-154)

    [for (i = 0; released_ids && i < MAXIMUM_SUPPORTED_POINTS; i++)]. *)
Fixpoint release_loop (released_ids : Z) (todo : nat) (i : Z)
  (modified_ids : Z) (out : list input_call) : Z * list input_call :=
  match todo with
  | O => (modified_ids, out)
  | S todo' =>
      if released_ids =? 0 then (modified_ids, out)
      else if negb (Z.land released_ids (Z.shiftl 1 i) =? 0)
      then release_loop released_ids todo' (i + 1)
             (Z.land modified_ids (Z.lnot (ID_TO_BIT i)))
             (out ++ [ input_mt_slot i;
                       input_mt_report_slot_state MT_TOOL_FINGER false ])
      else release_loop released_ids todo' (i + 1) modified_ids out
  end.

(** ** One iteration of the thread, after the frame has been copied
    (lines 93-159): the new [known_ids] and the calls made. *)
Definition ft5406_cycle (ts : ft5406) (known_ids : Z) (regs : ft5406_regs)
  : option (Z * list input_call) :=
  if negb ((num_points regs =? 99)
           || ((num_points regs =? 0) && (known_ids =? 0)))
  then
    match point_loop ts (point regs) (Z.to_nat (num_points regs)) 0 0 [] with
    | None => None
    | Some (modified_ids, out) =>
        let released_ids := Z.land known_ids (Z.lnot modified_ids) in
        let '(modified_ids, out) :=
          release_loop released_ids (Z.to_nat MAXIMUM_SUPPORTED_POINTS) 0
            modified_ids out in
        Some (modified_ids,
              out ++ [ input_mt_report_pointer_emulation true; input_sync ])
    end
  else Some (known_ids, []).

(** The shared buffer side of an iteration (lines 84-87): the frame is
    copied out and 99 is written over its [num_points]. *)
Definition ft5406_fetch (ts_base : ft5406_regs) : ft5406_regs * ft5406_regs :=
  (ts_base,
   mk_regs (device_mode ts_base) (gesture_id ts_base) 99 (point ts_base)).

(** [ft5406_thread], run over the frames its successive iterations copy:
    the final [known_ids] and the calls of each iteration. *)
Fixpoint ft5406_thread (ts : ft5406) (known_ids : Z)
  (frames : list ft5406_regs) : option (Z * list (list input_call)) :=
  match frames with
  | [] => Some (known_ids, [])
  | regs :: frames' =>
      match ft5406_cycle ts known_ids regs with
      | None => None
      | Some (known_ids', calls) =>
          match ft5406_thread ts known_ids' frames' with
          | None => None
          | Some (k, rest) => Some (k, calls :: rest)
          end
      end
  end.

(** ** [enable_store] (lines 173-208)

    The kernel services it calls are parameters: [kstrtouint buf] gives the
    returned error code and the value stored through [&val]; [kthread_run]
    is the handle a start attempt yields; [kthread_stop] is the exit code
    of the stopped thread.  The result is the returned [ssize_t] and the
    device structure as the call leaves it. *)
Section Sysfs.

Variable buffer : Type.
Variable kstrtouint : buffer -> Z * Z.
Variable kthread_run : task_struct.
Variable kthread_stop : task_struct -> Z.

Definition set_thread (ts : ft5406) (t : task_struct) : ft5406 :=
  mk_ft5406 t (enable ts) (max_x ts) (max_y ts)
    (hflip ts) (vflip ts) (xyswap ts).

Definition set_enable (ts : ft5406) (b : bool) : ft5406 :=
  mk_ft5406 (thread ts) b (max_x ts) (max_y ts)
    (hflip ts) (vflip ts) (xyswap ts).

Definition enable_show (ts : ft5406) : Z := if enable ts then 1 else 0.

Definition enable_store (ts : ft5406) (buf : buffer) (count : Z)
  : Z * ft5406 :=
  let '(error, val) := kstrtouint buf in
  if negb (error =? 0) then (error, ts)
  else if Bool.eqb (enable ts) (negb (val =? 0)) then (count, ts)
  else if negb (val =? 0) then
    let ts := set_thread ts kthread_run in
    if IS_ERR (thread ts) then (count, ts)
    else (count, set_enable ts (negb (val =? 0)))
  else
    let error := kthread_stop (thread ts) in
    if negb (error =? 0) then (count, ts)
    else (count, set_enable ts (negb (val =? 0))).

End Sysfs.

(** ** Reading the recorded calls

    The input core applies a slot state report to the slot selected by the
    latest [input_mt_slot]; [slot] is the one selected before [calls]. *)
Fixpoint slot_reports (slot : Z) (calls : list input_call)
  : list (Z * bool) :=
  match calls with
  | [] => []
  | input_mt_slot s :: rest => slot_reports s rest
  | input_mt_report_slot_state _ a :: rest =>
      (slot, a) :: slot_reports slot rest
  | _ :: rest => slot_reports slot rest
  end.

(** Slots reported in contact, and slots reported released. *)
Definition updated_slots (slot : Z) (calls : list input_call) : list Z :=
  map fst (filter snd (slot_reports slot calls)).

Definition released_slots (slot : Z) (calls : list input_call) : list Z :=
  map fst (filter (fun r => negb (snd r)) (slot_reports slot calls)).

Definition release_count (slot id : Z) (calls : list input_call) : nat :=
  count_occ Z.eq_dec (released_slots slot calls) id.

(** ** The frame as the thread reads it *)

(** The records the point loop visits. *)
Definition observations (regs : ft5406_regs) : list ft5406_touch :=
  firstn (Z.to_nat (num_points regs)) (point regs).

Definition is_down_or_contact (p : ft5406_touch) : bool :=
  (point_event_type p =? FTS_TOUCH_DOWN)
  || (point_event_type p =? FTS_TOUCH_CONTACT).

(** Some visited record carries [id], whatever its event type. *)
Definition mentions (regs : ft5406_regs) (id : Z) : bool :=
  existsb (fun p => point_touchid p =? id) (observations regs).

(** Some visited record carries [id] with event type down or contact. *)
Definition touches (regs : ft5406_regs) (id : Z) : bool :=
  existsb (fun p => (point_touchid p =? id) && is_down_or_contact p)
    (observations regs).

(** The iteration is not skipped by the test of lines 93-94. *)
Definition processed (known_ids : Z) (regs : ft5406_regs) : bool :=
  negb ((num_points regs =? 99)
        || ((num_points regs =? 0) && (known_ids =? 0))).

(** The frame keeps to what the firmware is documented to write: ten
    records, and a count of 0 to 10 or the marker 99. *)
Definition in_contract (regs : ft5406_regs) : Prop :=
  length (point regs) = Z.to_nat MAXIMUM_SUPPORTED_POINTS /\
  (num_points regs = 99 \/ 0 <= num_points regs <= MAXIMUM_SUPPORTED_POINTS).

(** [modified_ids] after the point loop. *)
Definition modified_of (pts : list ft5406_touch) (m : Z) : Z :=
  fold_left (fun m p => Z.lor m (ID_TO_BIT (point_touchid p))) pts m.

Definition update_block (ts : ft5406) (p : ft5406_touch) : list input_call :=
  let '(x, y) := transform ts (point_x p) (point_y p) in
  [ input_mt_slot (point_touchid p);
    input_mt_report_slot_state MT_TOOL_FINGER true;
    input_report_abs ABS_MT_POSITION_X x;
    input_report_abs ABS_MT_POSITION_Y y ].

Definition release_block (i : Z) : list input_call :=
  [ input_mt_slot i; input_mt_report_slot_state MT_TOOL_FINGER false ].

Definition update_calls (ts : ft5406) (pts : list ft5406_touch)
  : list input_call :=
  flat_map (update_block ts) (filter is_down_or_contact pts).

(** The bit indices [i], [i+1], ... the release loop tests. *)
Fixpoint indices (i : Z) (todo : nat) : list Z :=
  match todo with
  | O => []
  | S todo' => i :: indices (i + 1) todo'
  end.

Definition to_release (released_ids : Z) : list Z :=
  filter (Z.testbit released_ids)
    (indices 0 (Z.to_nat MAXIMUM_SUPPORTED_POINTS)).

(** The release set and the calls of an iteration that is not skipped. *)
Definition released_of (known_ids : Z) (regs : ft5406_regs) : Z :=
  Z.land known_ids (Z.lnot (modified_of (observations regs) 0)).

Definition cycle_calls (ts : ft5406) (known_ids : Z) (regs : ft5406_regs)
  : list input_call :=
  update_calls ts (observations regs)
  ++ flat_map release_block (to_release (released_of known_ids regs))
  ++ [ input_mt_report_pointer_emulation true; input_sync ].

(** ** The orientation as the specification words it

    A configuration with boolean flags, and the three steps in order. *)
Module Spec.

Record TouchscreenConfig : Type := mk_config {
  cfg_max_x : Z;
  cfg_max_y : Z;
  cfg_hflip : bool;
  cfg_vflip : bool;
  cfg_xyswap : bool
}.

Definition transform (x y : Z) (cfg : TouchscreenConfig) : Z * Z :=
  let x' := if cfg_hflip cfg then cfg_max_x cfg - 1 - x else x in
  let y' := if cfg_vflip cfg then cfg_max_y cfg - 1 - y else y in
  if cfg_xyswap cfg then (y', x') else (x', y').

End Spec.

(** The configuration a device structure stands for. *)
Definition config_of (ts : ft5406) : Spec.TouchscreenConfig :=
  Spec.mk_config (max_x ts) (max_y ts)
    (negb (hflip ts =? 0)) (negb (vflip ts =? 0)) (negb (xyswap ts =? 0)).

(** Later frames in which [id] stays away: the frame is stale, or no
    visited record carries [id]. *)
Definition stays_absent (id : Z) (regs : ft5406_regs) : bool :=
  (num_points regs =? 99) || negb (mentions regs id).

(** ** Sample devices and frames *)

(** The default 800 x 480 panel, and the same mounted mirrored in x. *)
Definition panel : ft5406 := mk_ft5406 (task 1) true 800 480 0 0 0.
Definition panel_hflip : ft5406 := mk_ft5406 (task 1) true 800 480 1 0 0.
Definition panel_swapped : ft5406 := mk_ft5406 (task 1) true 800 480 0 0 1.

Definition no_touch : ft5406_touch := mk_touch 0 0 0 0 0 0.

(** A frame of ten records: [pts], then blank ones. *)
Definition frame (n : Z) (pts : list ft5406_touch) : ft5406_regs :=
  mk_regs 0 0 n
    (pts ++ repeat no_touch
              (Z.to_nat MAXIMUM_SUPPORTED_POINTS - length pts)).

(** Id 3 at (100, 200): [xh] holds the event type in its top two bits,
    [yh] the id in its top four. *)
Definition down3 : ft5406_touch := mk_touch 0x00 100 0x30 200 0 0.
Definition up3 : ft5406_touch := mk_touch 0x40 100 0x30 200 0 0.
Definition reserved3 : ft5406_touch := mk_touch 0xc0 100 0x30 200 0 0.
(** Id 12 at (100, 200), event type down. *)
Definition down12 : ft5406_touch := mk_touch 0x00 100 0xc0 200 0 0.

Definition frame_down3 : ft5406_regs := frame 1 [down3].
Definition frame_up3 : ft5406_regs := frame 1 [up3].
Definition frame_reserved3 : ft5406_regs := frame 1 [reserved3].
Definition frame_down12 : ft5406_regs := frame 1 [down12].
Definition frame_empty : ft5406_regs := frame 0 [].
Definition frame_stale : ft5406_regs := frame 99 [down3].
Definition frame_eleven : ft5406_regs := frame 11 [down3].

(** ** The loop body on the shared buffer (lines 83-159)

    During the sleep the firmware may have stored a new frame ([Some]) or
    nothing ([None]); the body then copies the buffer, marks it read and
    handles the copy.  A firmware store that falls between the copy and
    the mark is outside this model. *)
Definition firmware_write (w : option ft5406_regs) (ts_base : ft5406_regs)
  : ft5406_regs :=
  match w with
  | Some regs => regs
  | None => ts_base
  end.

Fixpoint ft5406_thread_io (ts : ft5406) (known_ids : Z)
  (ts_base : ft5406_regs) (writes : list (option ft5406_regs))
  : option (Z * ft5406_regs * list (list input_call)) :=
  match writes with
  | [] => Some (known_ids, ts_base, [])
  | w :: writes' =>
      let '(regs, ts_base') := ft5406_fetch (firmware_write w ts_base) in
      match ft5406_cycle ts known_ids regs with
      | None => None
      | Some (known_ids', calls) =>
          match ft5406_thread_io ts known_ids' ts_base' writes' with
          | None => None
          | Some (k, b, rest) => Some (k, b, calls :: rest)
          end
      end
  end.

(** The positions an iteration reports, by axis. *)
Fixpoint reported_abs (code : abs_code) (calls : list input_call) : list Z :=
  match calls with
  | [] => []
  | input_report_abs c v :: rest =>
      match code, c with
      | ABS_MT_POSITION_X, ABS_MT_POSITION_X
      | ABS_MT_POSITION_Y, ABS_MT_POSITION_Y => v :: reported_abs code rest
      | _, _ => reported_abs code rest
      end
  | _ :: rest => reported_abs code rest
  end.

(** ** [ft5406_probe] and [ft5406_remove] (lines 221-415)

    What the platform answers to each request of the probe. *)
Record platform : Type := mk_platform {
  (** [of_parse_phandle(np, "firmware", 0)] and [rpi_firmware_get] found
      something; [devm_kzalloc] and [input_allocate_device] succeeded. *)
  fw_node : bool;
  fw : bool;
  ts_alloc : bool;
  input_alloc : bool;
  (** [dma_zalloc_coherent]: the bus address when it succeeds. *)
  dma : option Z;
  (** The two firmware property calls: returned error, and [touchbuf] as
      the firmware leaves it. *)
  set_touchbuf : Z * Z;
  get_touchbuf : Z * Z;
  io_map : bool;
  (** [of_property_read_u32]: the value when the property is there. *)
  dt_size_x : option Z;
  dt_size_y : option Z;
  dt_inverted_x : option Z;
  dt_inverted_y : option Z;
  dt_swapped_x_y : option Z;
  register_error : Z;
  sysfs_error : Z;
  thread_handle : task_struct
}.

(** Where [ts->ts_base] points. *)
Inductive io_base : Type :=
| no_base
| dma_base
| mapped_base (phys : Z).

(** The rest of [struct ft5406] the probe fills in. *)
Record ft5406_device : Type := mk_device {
  dev : ft5406;
  ts_base : io_base;
  bus_addr : Z;
  input_dev : bool
}.

(** Resources taken and given back, and what is declared to the input
    core.  A request that fails takes nothing and is not recorded. *)
Inductive kernel_call : Type :=
| input_allocate_device
| dma_zalloc_coherent
| dma_free_coherent
| ioremap (phys : Z)
| iounmap
| input_set_abs_params (code : abs_code) (min max : Z)
| input_mt_init_slots (num_slots : Z)
| input_register_device
| input_unregister_device
| sysfs_create_group
| sysfs_remove_group
| kthread_run
| kthread_stop (t : task_struct).

Definition DEFAULT_SCREEN_WIDTH : Z := 800.
Definition DEFAULT_SCREEN_HEIGHT : Z := 480.

Definition is_null (b : io_base) : bool :=
  match b with
  | no_base => true
  | _ => false
  end.

(** Labels [out] and what follows it (lines 379-392). *)
Definition probe_out (d : ft5406_device) (err : Z) (tr : list kernel_call)
  : Z * option ft5406_device * list kernel_call :=
  let '(d, tr) :=
    if negb (bus_addr d =? 0)
    then (mk_device (dev d) no_base 0 (input_dev d),
          tr ++ [dma_free_coherent])
    else if negb (is_null (ts_base d))
    then (mk_device (dev d) no_base (bus_addr d) (input_dev d),
          tr ++ [iounmap])
    else (d, tr) in
  let '(d, tr) :=
    if input_dev d
    then (mk_device (dev d) (ts_base d) (bus_addr d) false,
          tr ++ [input_unregister_device])
    else (d, tr) in
  (err, Some d, tr).

(** Lines 311-334: screen size and orientation from the devicetree, with
    the conversions of the [u32] read to the [uint16_t] and [uint8_t]
    fields. *)
Definition probe_config (pf : platform) (d : ft5406) : ft5406 :=
  mk_ft5406 (thread d) (enable d)
    (match dt_size_x pf with
     | Some val => val mod 65536
     | None => DEFAULT_SCREEN_WIDTH
     end)
    (match dt_size_y pf with
     | Some val => val mod 65536
     | None => DEFAULT_SCREEN_HEIGHT
     end)
    (match dt_inverted_x pf with
     | Some val => val mod 256
     | None => hflip d
     end)
    (match dt_inverted_y pf with
     | Some val => val mod 256
     | None => vflip d
     end)
    (match dt_swapped_x_y pf with
     | Some val => val mod 256
     | None => xyswap d
     end).

(** Errno values are the kernel headers'. *)
Section Probe.

Variables ENOENT ENOMEM ENODEV EPROBE_DEFER : Z.

(** Lines 308-375, once [ts->ts_base] is set. *)
Definition probe_finish (pf : platform) (d : ft5406_device)
  (tr : list kernel_call) : Z * option ft5406_device * list kernel_call :=
  let ts := probe_config pf (dev d) in
  let d := mk_device ts (ts_base d) (bus_addr d) (input_dev d) in
  let tr :=
    tr ++ [ input_set_abs_params ABS_MT_POSITION_X 0
              (if negb (xyswap ts =? 0) then max_y ts else max_x ts);
            input_set_abs_params ABS_MT_POSITION_Y 0
              (if negb (xyswap ts =? 0) then max_x ts else max_y ts);
            input_mt_init_slots MAXIMUM_SUPPORTED_POINTS ] in
  if negb (register_error pf =? 0) then probe_out d (register_error pf) tr
  else
    let tr := tr ++ [input_register_device] in
    let d := mk_device (set_enable (dev d) true)
               (ts_base d) (bus_addr d) (input_dev d) in
    if negb (sysfs_error pf =? 0) then probe_out d (sysfs_error pf) tr
    else
      let tr := tr ++ [sysfs_create_group] in
      let d := mk_device (set_thread (dev d) (thread_handle pf))
                 (ts_base d) (bus_addr d) (input_dev d) in
      if IS_ERR (thread (dev d))
      then probe_out d (- ENOMEM) (tr ++ [sysfs_remove_group])
      else (0, Some d, tr ++ [kthread_run]).

(** Lines 277-307: the buffer the firmware already has. *)
Definition probe_get_touchbuf (pf : platform) (d : ft5406_device)
  (tr : list kernel_call) : Z * option ft5406_device * list kernel_call :=
  let '(err, touchbuf) := get_touchbuf pf in
  if negb (err =? 0) then probe_out d err tr
  else if touchbuf =? 0 then probe_out d (- ENODEV) tr
  else
    let touchbuf := Z.land touchbuf (Z.lnot 0xc0000000) in
    if negb (io_map pf) then probe_out d (- ENOMEM) tr
    else
      probe_finish pf
        (mk_device (dev d) (mapped_base touchbuf) (bus_addr d) (input_dev d))
        (tr ++ [ioremap touchbuf]).

Definition ft5406_probe (pf : platform)
  : Z * option ft5406_device * list kernel_call :=
  if negb (fw_node pf) then (- ENOENT, None, [])
  else if negb (fw pf) then (- EPROBE_DEFER, None, [])
  else if negb (ts_alloc pf) then (- ENOMEM, None, [])
  else
    let d := mk_device (mk_ft5406 (task 0) false 0 0 0 0 0) no_base 0 false in
    if negb (input_alloc pf) then (- ENOMEM, Some d, [])
    else
      let d := mk_device (dev d) (ts_base d) (bus_addr d) true in
      let tr := [input_allocate_device] in
      match dma pf with
      | None => probe_out d (- ENOMEM) tr
      | Some bus =>
          let d := mk_device (dev d) dma_base bus (input_dev d) in
          let tr := tr ++ [dma_zalloc_coherent] in
          let '(err, touchbuf) := set_touchbuf pf in
          if negb (err =? 0) || negb (touchbuf =? 0)
          then
            probe_get_touchbuf pf
              (mk_device (dev d) no_base 0 (input_dev d))
              (tr ++ [dma_free_coherent])
          else probe_finish pf d tr
      end.

End Probe.

(** [ft5406_remove] (lines 395-415); it returns 0. *)
Definition ft5406_remove (d : ft5406_device) : list kernel_call :=
  [sysfs_remove_group]
  ++ (if enable (dev d) then [kthread_stop (thread (dev d))] else [])
  ++ (if negb (bus_addr d =? 0) then [dma_free_coherent]
      else if negb (is_null (ts_base d)) then [iounmap]
      else [])
  ++ (if input_dev d then [input_unregister_device] else []).

(** How often a call was made that has no argument. *)
Definition made (c : kernel_call) (tr : list kernel_call) : nat :=
  length
    (filter
       (fun c' =>
          match c, c' with
          | input_allocate_device, input_allocate_device
          | dma_zalloc_coherent, dma_zalloc_coherent
          | dma_free_coherent, dma_free_coherent
          | iounmap, iounmap
          | input_register_device, input_register_device
          | input_unregister_device, input_unregister_device
          | sysfs_create_group, sysfs_create_group
          | sysfs_remove_group, sysfs_remove_group
          | kthread_run, kthread_run => true
          | _, _ => false
          end) tr).

Definition mappings (tr : list kernel_call) : nat :=
  length (filter (fun c => match c with ioremap _ => true | _ => false end)
            tr).

Definition stops (tr : list kernel_call) : nat :=
  length (filter (fun c => match c with kthread_stop _ => true | _ => false end)
            tr).

(** ** sound/soc/bcm/iqaudio-codec.c

    The machine driver of the IQaudIO codec board.  The constants of
    [da7213.h] and of the ASoC headers, the two event tests and the answers
    of the DAI calls are parameters. *)
Module Iqaudio.

(** The calls made on the two DAIs. *)
Inductive dai_call : Type :=
| snd_soc_dai_set_pll (pll_id source freq_in freq_out : Z)
| snd_soc_dai_set_bclk_ratio (ratio : Z)
| snd_soc_dai_set_sysclk (clk_id freq dir : Z).

Section Codec.

Variables DA7213_PLL_FREQ_OUT_90316800 DA7213_PLL_FREQ_OUT_98304000 : Z.
Variables DA7213_SYSCLK_MCLK DA7213_SYSCLK_PLL DA7213_CLKSRC_MCLK : Z.
Variables SND_SOC_CLOCK_OUT EINVAL : Z.
Variables SND_SOC_DAPM_EVENT_OFF SND_SOC_DAPM_EVENT_ON : Z -> bool.
Variable answer : dai_call -> Z.

(** [snd_rpi_iqaudio_codec_hw_params] (lines 121-143): the returned code
    and the global [pll_out] as the call leaves it. *)
Definition snd_rpi_iqaudio_codec_hw_params (pll_out samplerate : Z)
  : Z * Z :=
  if (samplerate =? 8000) || (samplerate =? 16000) || (samplerate =? 32000)
     || (samplerate =? 48000) || (samplerate =? 96000)
  then (0, DA7213_PLL_FREQ_OUT_98304000)
  else if (samplerate =? 44100) || (samplerate =? 88200)
  then (0, DA7213_PLL_FREQ_OUT_90316800)
  else (- EINVAL, pll_out).

(** [snd_rpi_iqaudio_pll_control] (lines 33-56): the returned code and the
    call made, if any. *)
Definition snd_rpi_iqaudio_pll_control (pll_out event : Z)
  : Z * list dai_call :=
  if SND_SOC_DAPM_EVENT_OFF event then
    let c := snd_soc_dai_set_pll 0 DA7213_SYSCLK_MCLK 0 0 in
    (answer c, [c])
  else if SND_SOC_DAPM_EVENT_ON event then
    let c := snd_soc_dai_set_pll 0 DA7213_SYSCLK_PLL 0 pll_out in
    (answer c, [c])
  else (0, []).

End Codec.

(** The rates [hw_params] has a case for. *)
Definition supported_rates : list Z :=
  [8000; 16000; 32000; 48000; 96000; 44100; 88200].

End Iqaudio.

(** The raw position of a down or contact record lies on the screen. *)
Definition raw_in_screen (ts : ft5406) (p : ft5406_touch) : bool :=
  negb (is_down_or_contact p)
  || ((0 <=? point_x p) && (point_x p <? max_x ts)
      && (0 <=? point_y p) && (point_y p <? max_y ts)).

(** A write to the enable attribute with what the kernel answers to it,
    and a series of them. *)
Record sysfs_write : Type := mk_write {
  w_parse : Z * Z;
  w_count : Z;
  w_run : task_struct;
  w_stop : task_struct -> Z
}.

Definition apply_write (ts : ft5406) (w : sysfs_write) : ft5406 :=
  snd (enable_store unit (fun _ => w_parse w) (w_run w) (w_stop w)
         ts tt (w_count w)).

Definition apply_writes (ts : ft5406) (ws : list sysfs_write) : ft5406 :=
  fold_left apply_write ws ts.

(** The device structure and the declarations every successful probe ends
    with. *)
Definition probed_ts (pf : platform) : ft5406 :=
  set_thread
    (set_enable (probe_config pf (mk_ft5406 (task 0) false 0 0 0 0 0)) true)
    (thread_handle pf).

Definition probed_tail (pf : platform) : list kernel_call :=
  [ input_set_abs_params ABS_MT_POSITION_X 0
      (if negb (xyswap (probed_ts pf) =? 0)
       then max_y (probed_ts pf) else max_x (probed_ts pf));
    input_set_abs_params ABS_MT_POSITION_Y 0
      (if negb (xyswap (probed_ts pf) =? 0)
       then max_x (probed_ts pf) else max_y (probed_ts pf));
    input_mt_init_slots MAXIMUM_SUPPORTED_POINTS;
    input_register_device; sysfs_create_group; kthread_run ].

(** Sample platforms: one on which every request succeeds; one whose
    firmware refuses the offered buffer and names its own, with
    [touchscreen-inverted-x = 256] and [touchscreen-inverted-y = 1]; one on
    which the thread cannot be started. *)
Definition platform_ok : platform :=
  mk_platform true true true true (Some 0x1e000000) (0, 0) (0, 0) true
    (Some 800) (Some 480) None None None 0 0 (task 7).

Definition platform_fallback : platform :=
  mk_platform true true true true (Some 0x1e000000)
    (0, 0x1e000000) (0, 0xde000000) true
    None None (Some 256) (Some 1) None 0 0 (task 7).

Definition platform_no_thread : platform :=
  mk_platform true true true true (Some 0x1e000000) (0, 0) (0, 0) true
    (Some 800) (Some 480) None None None 0 0 (ERR_PTR (-12)).

Definition device_ok : ft5406_device :=
  mk_device (probed_ts platform_ok) dma_base 0x1e000000 true.

Definition trace_ok : list kernel_call :=
  [input_allocate_device; dma_zalloc_coherent] ++ probed_tail platform_ok.

Definition device_fallback : ft5406_device :=
  mk_device (probed_ts platform_fallback) (mapped_base 0x1e000000) 0 true.

Definition trace_fallback : list kernel_call :=
  [input_allocate_device; dma_zalloc_coherent; dma_free_coherent;
   ioremap 0x1e000000] ++ probed_tail platform_fallback.

(** Writes to the enable attribute: a stop that fails, a stop that works,
    a start that fails. *)
Definition sample_writes : list sysfs_write :=
  [ mk_write (0, 0) 2 (task 8) (fun _ => -4);
    mk_write (0, 0) 2 (task 8) (fun _ => 0);
    mk_write (0, 1) 2 (ERR_PTR (-12)) (fun _ => 0) ].

(** The largest [ssize_t], for a [size_t] of [bits] bits.  [enable_store]
    takes [count] as a [size_t] and returns it as an [ssize_t]; up to this
    bound the two agree. *)
Definition SSIZE_MAX (bits : Z) : Z := 2 ^ (bits - 1) - 1.

(** Writes after which the device is enabled again: a stop that fails, a
    stop that works, a start that fails, a start that works. *)
Definition sample_restart : list sysfs_write :=
  [ mk_write (0, 0) 2 (task 8) (fun _ => -4);
    mk_write (0, 0) 2 (task 8) (fun _ => 0);
    mk_write (0, 1) 2 (ERR_PTR (-12)) (fun _ => 0);
    mk_write (0, 1) 2 (task 9) (fun _ => 0) ].

(** * Properties *)

(** ** Bit level facts *)

Lemma point_touchid_range (p : ft5406_touch) : 0 <= point_touchid p < 16.
Proof.
  unfold point_touchid.
  change 0xf with (Z.ones 4).
  rewrite Z.land_ones by lia.
  apply Z.mod_pos_bound. reflexivity.
Qed.

Lemma point_event_type_range (p : ft5406_touch) :
  0 <= point_event_type p < 4.
Proof.
  unfold point_event_type.
  change 0x03 with (Z.ones 2).
  rewrite Z.land_ones by lia.
  apply Z.mod_pos_bound. reflexivity.
Qed.

Lemma ID_TO_BIT_testbit (a n : Z) :
  0 <= a -> Z.testbit (ID_TO_BIT a) n = (a =? n).
Proof.
  intros Ha. unfold ID_TO_BIT.
  rewrite Z.shiftl_1_l. now apply Z.pow2_bits_eqb.
Qed.

Lemma land_bit_is_testbit (r i : Z) :
  0 <= i -> negb (Z.land r (Z.shiftl 1 i) =? 0) = Z.testbit r i.
Proof.
  intros Hi.
  destruct (Z.testbit r i) eqn:Hb.
  - apply negb_true_iff, Z.eqb_neq. intros H0.
    assert (Ht : Z.testbit (Z.land r (Z.shiftl 1 i)) i = true).
    { rewrite Z.land_spec, Hb. fold (ID_TO_BIT i).
      rewrite ID_TO_BIT_testbit by assumption.
      now rewrite Z.eqb_refl. }
    rewrite H0, Z.bits_0 in Ht. discriminate.
  - apply negb_false_iff, Z.eqb_eq, Z.bits_inj'.
    intros n Hn. rewrite Z.land_spec, Z.bits_0. fold (ID_TO_BIT i).
    rewrite ID_TO_BIT_testbit by assumption.
    destruct (Z.eqb_spec i n) as [->|_].
    + now rewrite Hb.
    + apply andb_false_r.
Qed.

Lemma clear_unset_bit (m i : Z) :
  0 <= i -> Z.testbit m i = false -> Z.land m (Z.lnot (ID_TO_BIT i)) = m.
Proof.
  intros Hi Hb. apply Z.bits_inj'. intros n Hn.
  rewrite Z.land_spec, Z.lnot_spec, ID_TO_BIT_testbit by assumption.
  destruct (Z.eqb_spec i n) as [->|_]; cbn.
  - rewrite Hb. reflexivity.
  - apply andb_true_r.
Qed.

Lemma released_testbit (known_ids modified_ids i : Z) :
  0 <= i ->
  Z.testbit (Z.land known_ids (Z.lnot modified_ids)) i
  = Z.testbit known_ids i && negb (Z.testbit modified_ids i).
Proof.
  intros Hi. now rewrite Z.land_spec, Z.lnot_spec.
Qed.

(** ** The point loop *)

Lemma report_point_eq (ts : ft5406) (p : ft5406_touch) (m : Z) :
  report_point ts p m
  = (Z.lor m (ID_TO_BIT (point_touchid p)),
     if is_down_or_contact p then update_block ts p else []).
Proof.
  unfold report_point, update_block, is_down_or_contact.
  destruct ((point_event_type p =? FTS_TOUCH_DOWN)
            || (point_event_type p =? FTS_TOUCH_CONTACT)).
  - now destruct (transform ts (point_x p) (point_y p)).
  - reflexivity.
Qed.

Lemma update_calls_cons (ts : ft5406) (p : ft5406_touch) pts :
  update_calls ts (p :: pts)
  = (if is_down_or_contact p then update_block ts p else [])
    ++ update_calls ts pts.
Proof.
  unfold update_calls. cbn [filter].
  now destruct (is_down_or_contact p).
Qed.

Lemma skipn_nth_error {A : Type} (l : list A) :
  forall i a, nth_error l i = Some a -> skipn i l = a :: skipn (S i) l.
Proof.
  induction l as [|b l IH]; intros [|i] a H; cbn in H; try discriminate.
  - now injection H as ->.
  - cbn [skipn]. now apply IH.
Qed.

Lemma point_loop_in_range (ts : ft5406) pts :
  forall todo i m out,
    (i + todo <= length pts)%nat ->
    point_loop ts pts todo i m out
    = Some (modified_of (firstn todo (skipn i pts)) m,
            out ++ update_calls ts (firstn todo (skipn i pts))).
Proof.
  induction todo as [|todo IH]; intros i m out Hlen; cbn [point_loop].
  - cbn. now rewrite app_nil_r.
  - destruct (nth_error pts i) as [p|] eqn:Hp.
    2:{ apply nth_error_None in Hp. lia. }
    pose proof (skipn_nth_error _ _ _ Hp) as Hskip.
    rewrite report_point_eq, IH by lia.
    rewrite Hskip. cbn [firstn modified_of fold_left].
    rewrite update_calls_cons, app_assoc. reflexivity.
Qed.

Lemma point_loop_overrun (ts : ft5406) pts :
  forall todo i m out,
    (i <= length pts < i + todo)%nat ->
    point_loop ts pts todo i m out = None.
Proof.
  induction todo as [|todo IH]; intros i m out Hlen; cbn [point_loop].
  - lia.
  - destruct (nth_error pts i) as [p|] eqn:Hp; [|reflexivity].
    assert (i < length pts)%nat by (apply nth_error_Some; congruence).
    rewrite report_point_eq. apply IH. lia.
Qed.

Lemma modified_of_testbit pts :
  forall m id,
    Z.testbit (modified_of pts m) id
    = Z.testbit m id || existsb (fun p => point_touchid p =? id) pts.
Proof.
  induction pts as [|p pts IH]; intros m id; cbn [modified_of fold_left existsb].
  - now rewrite orb_false_r.
  - fold (modified_of pts (Z.lor m (ID_TO_BIT (point_touchid p)))).
    rewrite IH, Z.lor_spec, ID_TO_BIT_testbit by apply point_touchid_range.
    now rewrite orb_assoc.
Qed.

(** ** The release loop *)

Lemma filter_testbit_0 (l : list Z) : filter (Z.testbit 0) l = [].
Proof.
  induction l as [|i l IH]; cbn; [reflexivity|].
  now rewrite Z.bits_0.
Qed.

(** The loop leaves [modified_ids] as it found it whenever the bits it
    clears are not set there, which is the case for [known & ~modified]. *)
Lemma release_loop_spec (r : Z) :
  forall todo i m out,
    0 <= i ->
    (forall j, 0 <= j -> Z.testbit r j = true -> Z.testbit m j = false) ->
    release_loop r todo i m out
    = (m, out ++ flat_map release_block
                   (filter (Z.testbit r) (indices i todo))).
Proof.
  induction todo as [|todo IH]; intros i m out Hi Hdisj;
    cbn [release_loop indices filter].
  - cbn. now rewrite app_nil_r.
  - destruct (Z.eqb_spec r 0) as [->|Hr].
    + rewrite Z.bits_0, filter_testbit_0. cbn. now rewrite app_nil_r.
    + rewrite land_bit_is_testbit by assumption.
      destruct (Z.testbit r i) eqn:Hb.
      * rewrite clear_unset_bit by auto.
        rewrite IH by (auto; lia).
        cbn [flat_map]. unfold release_block at 2.
        now rewrite <- app_assoc.
      * apply IH; auto; lia.
Qed.

Lemma indices_range (id : Z) :
  forall todo i, In id (indices i todo) <-> i <= id < i + Z.of_nat todo.
Proof.
  induction todo as [|todo IH]; intros i; cbn [indices In].
  - lia.
  - rewrite IH. lia.
Qed.

Lemma indices_count (id : Z) :
  forall todo i,
    count_occ Z.eq_dec (indices i todo) id
    = if (i <=? id) && (id <? i + Z.of_nat todo) then 1%nat else 0%nat.
Proof.
  induction todo as [|todo IH]; intros i; cbn [indices count_occ].
  - destruct (Z.leb_spec i id), (Z.ltb_spec id (i + Z.of_nat 0));
      try reflexivity; lia.
  - rewrite IH.
    destruct (Z.eq_dec i id) as [Heq|Hne];
      destruct (Z.leb_spec (i + 1) id), (Z.leb_spec i id),
        (Z.ltb_spec id (i + 1 + Z.of_nat todo)),
        (Z.ltb_spec id (i + Z.of_nat (S todo)));
      try reflexivity; lia.
Qed.

Lemma count_occ_filter (f : Z -> bool) (id : Z) (l : list Z) :
  count_occ Z.eq_dec (filter f l) id
  = if f id then count_occ Z.eq_dec l id else 0%nat.
Proof.
  induction l as [|a l IH]; cbn [filter count_occ].
  - now destruct (f id).
  - destruct (f a) eqn:Hfa; cbn [count_occ];
      destruct (Z.eq_dec a id) as [->|Hne]; rewrite IH.
    + now rewrite Hfa.
    + reflexivity.
    + now rewrite Hfa.
    + reflexivity.
Qed.

Lemma to_release_count (r id : Z) :
  count_occ Z.eq_dec (to_release r) id
  = if Z.testbit r id && (0 <=? id) && (id <? MAXIMUM_SUPPORTED_POINTS)
    then 1%nat else 0%nat.
Proof.
  unfold to_release. rewrite count_occ_filter, indices_count.
  change (0 + Z.of_nat (Z.to_nat MAXIMUM_SUPPORTED_POINTS))
    with MAXIMUM_SUPPORTED_POINTS.
  destruct (Z.testbit r id), (0 <=? id), (id <? MAXIMUM_SUPPORTED_POINTS);
    reflexivity.
Qed.

Lemma to_release_In (r id : Z) :
  In id (to_release r)
  <-> Z.testbit r id = true /\ 0 <= id < MAXIMUM_SUPPORTED_POINTS.
Proof.
  unfold to_release. rewrite filter_In, indices_range.
  change (0 + Z.of_nat (Z.to_nat MAXIMUM_SUPPORTED_POINTS))
    with MAXIMUM_SUPPORTED_POINTS.
  tauto.
Qed.

(** ** One iteration *)

Lemma ft5406_cycle_skipped ts known_ids regs :
  processed known_ids regs = false ->
  ft5406_cycle ts known_ids regs = Some (known_ids, []).
Proof.
  unfold ft5406_cycle, processed. now intros ->.
Qed.

Lemma ft5406_cycle_processed ts known_ids regs :
  processed known_ids regs = true ->
  (Z.to_nat (num_points regs) <= length (point regs))%nat ->
  ft5406_cycle ts known_ids regs
  = Some (modified_of (observations regs) 0, cycle_calls ts known_ids regs).
Proof.
  unfold ft5406_cycle, processed. intros -> Hlen.
  rewrite point_loop_in_range by (cbn; lia).
  cbn [skipn app]. fold (observations regs).
  rewrite release_loop_spec.
  - fold (released_of known_ids regs).
    fold (to_release (released_of known_ids regs)).
    unfold cycle_calls. now rewrite <- app_assoc.
  - lia.
  - intros j Hj. rewrite released_testbit by assumption.
    intros [_ H]%andb_prop. now apply negb_true_iff.
Qed.

Lemma ft5406_cycle_overrun ts known_ids regs :
  processed known_ids regs = true ->
  (length (point regs) < Z.to_nat (num_points regs))%nat ->
  ft5406_cycle ts known_ids regs = None.
Proof.
  unfold ft5406_cycle, processed. intros -> Hlen.
  rewrite point_loop_overrun by (cbn; lia). reflexivity.
Qed.

Lemma ft5406_cycle_inv ts known_ids regs known_ids' calls :
  ft5406_cycle ts known_ids regs = Some (known_ids', calls) ->
  processed known_ids regs = true ->
  known_ids' = modified_of (observations regs) 0 /\
  calls = cycle_calls ts known_ids regs.
Proof.
  intros Hc Hp.
  destruct (Nat.le_gt_cases (Z.to_nat (num_points regs))
              (length (point regs))) as [Hle|Hgt].
  - rewrite ft5406_cycle_processed in Hc by assumption.
    injection Hc as <- <-. now split.
  - rewrite ft5406_cycle_overrun in Hc by assumption. discriminate.
Qed.

Lemma in_contract_defined ts known_ids regs :
  in_contract regs ->
  exists known_ids' calls,
    ft5406_cycle ts known_ids regs = Some (known_ids', calls).
Proof.
  intros [Hlen Hn].
  destruct (processed known_ids regs) eqn:Hp.
  - rewrite ft5406_cycle_processed; eauto.
    destruct Hn as [Hn|Hn]; [|unfold MAXIMUM_SUPPORTED_POINTS in *; lia].
    unfold processed in Hp. rewrite Hn in Hp. discriminate.
  - rewrite ft5406_cycle_skipped; eauto.
Qed.

(** ** Slot reports of an iteration *)

Lemma slot_reports_update_calls ts pts tail :
  forall slot, exists slot',
    slot_reports slot (update_calls ts pts ++ tail)
    = map (fun p => (point_touchid p, true)) (filter is_down_or_contact pts)
      ++ slot_reports slot' tail.
Proof.
  induction pts as [|p pts IH]; intros slot.
  - exists slot. reflexivity.
  - rewrite update_calls_cons. cbn [filter].
    destruct (is_down_or_contact p).
    + unfold update_block.
      destruct (transform ts (point_x p) (point_y p)) as [x y].
      cbn [app slot_reports map].
      destruct (IH (point_touchid p)) as [slot' ->].
      now exists slot'.
    + cbn [app]. apply IH.
Qed.

Lemma slot_reports_release_blocks ids tail :
  forall slot, exists slot',
    slot_reports slot (flat_map release_block ids ++ tail)
    = map (fun i => (i, false)) ids ++ slot_reports slot' tail.
Proof.
  induction ids as [|i ids IH]; intros slot.
  - exists slot. reflexivity.
  - cbn [flat_map release_block app slot_reports map].
    destruct (IH i) as [slot' ->].
    now exists slot'.
Qed.

Lemma cycle_calls_reports ts known_ids regs slot :
  slot_reports slot (cycle_calls ts known_ids regs)
  = map (fun p => (point_touchid p, true))
      (filter is_down_or_contact (observations regs))
    ++ map (fun i => (i, false)) (to_release (released_of known_ids regs)).
Proof.
  unfold cycle_calls.
  destruct (slot_reports_update_calls ts (observations regs)
              (flat_map release_block (to_release (released_of known_ids regs))
               ++ [input_mt_report_pointer_emulation true; input_sync]) slot)
    as [s1 ->].
  destruct (slot_reports_release_blocks
              (to_release (released_of known_ids regs))
              [input_mt_report_pointer_emulation true; input_sync] s1)
    as [s2 ->].
  cbn [slot_reports]. now rewrite app_nil_r.
Qed.

Lemma filter_tagged {A : Type} (f : A -> Z) (b : bool)
  (keep : Z * bool -> bool) (l : list A) :
  (forall z, keep (z, b) = true) ->
  map fst (filter keep (map (fun a => (f a, b)) l)) = map f l.
Proof.
  intros Hk. induction l as [|a l IH]; cbn; [reflexivity|].
  rewrite Hk. cbn. now rewrite IH.
Qed.

Lemma filter_untagged {A : Type} (f : A -> Z) (b : bool)
  (keep : Z * bool -> bool) (l : list A) :
  (forall z, keep (z, b) = false) ->
  filter keep (map (fun a => (f a, b)) l) = [].
Proof.
  intros Hk. induction l as [|a l IH]; cbn; [reflexivity|].
  now rewrite Hk.
Qed.

Lemma cycle_updated_slots ts known_ids regs slot :
  updated_slots slot (cycle_calls ts known_ids regs)
  = map point_touchid (filter is_down_or_contact (observations regs)).
Proof.
  unfold updated_slots.
  rewrite cycle_calls_reports, filter_app, map_app.
  rewrite (filter_untagged (fun i => i) false) by reflexivity.
  rewrite (filter_tagged point_touchid true) by reflexivity.
  apply app_nil_r.
Qed.

Lemma cycle_released_slots ts known_ids regs slot :
  released_slots slot (cycle_calls ts known_ids regs)
  = to_release (released_of known_ids regs).
Proof.
  unfold released_slots.
  rewrite cycle_calls_reports, filter_app, map_app.
  rewrite (filter_untagged point_touchid true) by reflexivity.
  rewrite (filter_tagged (fun i => i) false) by reflexivity.
  cbn [map app]. apply map_id.
Qed.

Lemma released_of_testbit known_ids regs id :
  0 <= id ->
  Z.testbit (released_of known_ids regs) id
  = Z.testbit known_ids id && negb (mentions regs id).
Proof.
  intros Hid. unfold released_of, mentions.
  rewrite released_testbit, modified_of_testbit, Z.bits_0 by assumption.
  reflexivity.
Qed.

Lemma touches_mentions regs id :
  touches regs id = true -> mentions regs id = true.
Proof.
  unfold touches, mentions. rewrite !existsb_exists.
  intros (p & Hin & [H _]%andb_prop). eauto.
Qed.

Lemma updated_slot_touches regs id :
  In id (map point_touchid (filter is_down_or_contact (observations regs)))
  <-> touches regs id = true.
Proof.
  unfold touches. rewrite in_map_iff, existsb_exists. split.
  - intros (p & <- & [Hin Hk]%filter_In). exists p. split; [assumption|].
    now rewrite Z.eqb_refl.
  - intros (p & Hin & [He Hk]%andb_prop). exists p.
    apply Z.eqb_eq in He. split; [assumption|]. now apply filter_In.
Qed.


(** ** The modified set (C1) *)

(** C1, as worded, fails.  Id 3 is live ([known_ids = 8]) and the frame
    reports it once, with event type up.  No visited record touches id 3 as
    down or contact, yet the point loop leaves bit 3 set in [modified_ids];
    the release set [known & ~modified] does not hold id 3, the iteration
    makes no release call and id 3 stays in [known_ids]. *)
Lemma up_record_counterexample :
  point_event_type up3 = FTS_TOUCH_UP /\
  touches frame_up3 3 = false /\
  point_loop panel (point frame_up3) (Z.to_nat (num_points frame_up3))
    0 0 [] = Some (8, []) /\
  Z.testbit 8 3 = true /\
  Z.testbit (Z.land 8 (Z.lnot 8)) 3 = false /\
  ft5406_cycle panel 8 frame_up3
  = Some (8, [input_mt_report_pointer_emulation true; input_sync]).
Proof.
  repeat split; reflexivity.
Qed.

(** C1, amended: in an iteration that is not skipped, [modified_ids] after
    the point loop holds exactly the ids of the visited records, whatever
    their event type; only the down and contact ones give a position report.
    An id carried by a visited record, of event type up or the unused value 3
    as well, is therefore outside the release set of this iteration: no
    release is reported for it and it is kept in [known_ids]. *)
Theorem modified_ids_any_event_type
  (ts : ft5406) (known_ids : Z) (regs : ft5406_regs)
  (known_ids' : Z) (calls : list input_call) (slot id : Z) :
  ft5406_cycle ts known_ids regs = Some (known_ids', calls) ->
  processed known_ids regs = true ->
  0 <= id ->
  exists modified_ids touch_calls,
    point_loop ts (point regs) (Z.to_nat (num_points regs)) 0 0 []
    = Some (modified_ids, touch_calls) /\
    Z.testbit modified_ids id = mentions regs id /\
    (In id (updated_slots slot calls) <-> touches regs id = true) /\
    (mentions regs id = true ->
     Z.testbit (Z.land known_ids (Z.lnot modified_ids)) id = false /\
     release_count slot id calls = 0%nat /\
     Z.testbit known_ids' id = true).
Proof.
  intros Hc Hp Hid.
  destruct (ft5406_cycle_inv _ _ _ _ _ Hc Hp) as [-> ->].
  exists (modified_of (observations regs) 0),
         (update_calls ts (observations regs)).
  assert (Hlen : (Z.to_nat (num_points regs) <= length (point regs))%nat).
  { destruct (Nat.le_gt_cases (Z.to_nat (num_points regs))
                (length (point regs))) as [H|H]; [assumption|].
    rewrite ft5406_cycle_overrun in Hc by assumption. discriminate. }
  assert (Hm : Z.testbit (modified_of (observations regs) 0) id
               = mentions regs id).
  { rewrite modified_of_testbit, Z.bits_0. reflexivity. }
  split; [|split; [|split]].
  - rewrite point_loop_in_range by (cbn; lia). reflexivity.
  - exact Hm.
  - rewrite cycle_updated_slots. apply updated_slot_touches.
  - intros Hin. fold (released_of known_ids regs).
    assert (Hr : Z.testbit (released_of known_ids regs) id = false).
    { rewrite released_of_testbit, Hin by assumption. apply andb_false_r. }
    split; [exact Hr|]. split.
    + unfold release_count.
      rewrite cycle_released_slots, to_release_count, Hr. reflexivity.
    + now rewrite Hm.
Qed.

Lemma modified_ids_any_event_type_witness :
  exists modified_ids touch_calls,
    point_loop panel (point frame_reserved3)
      (Z.to_nat (num_points frame_reserved3)) 0 0 []
    = Some (modified_ids, touch_calls) /\
    Z.testbit modified_ids 3 = mentions frame_reserved3 3 /\
    (In 3 (updated_slots 0
             [input_mt_report_pointer_emulation true; input_sync])
     <-> touches frame_reserved3 3 = true) /\
    (mentions frame_reserved3 3 = true ->
     Z.testbit (Z.land 8 (Z.lnot modified_ids)) 3 = false /\
     release_count 0 3
       [input_mt_report_pointer_emulation true; input_sync] = 0%nat /\
     Z.testbit 8 3 = true).
Proof.
  apply (modified_ids_any_event_type panel 8 frame_reserved3 8
           [input_mt_report_pointer_emulation true; input_sync] 0 3).
  - reflexivity.
  - reflexivity.
  - lia.
Defined.

(** ** The record count (C2) *)

(** C2: the point loop runs [num_points] times, whatever the count.  With
    the ten records of [regs.point] and a count above ten that is not 99 the
    eleventh pass reads [regs.point[10]], outside the array, and the
    iteration has no defined result. *)
Theorem num_points_not_clamped
  (ts : ft5406) (known_ids : Z) (regs : ft5406_regs) :
  length (point regs) = Z.to_nat MAXIMUM_SUPPORTED_POINTS ->
  MAXIMUM_SUPPORTED_POINTS < num_points regs ->
  num_points regs <> 99 ->
  nth_error (point regs) (Z.to_nat MAXIMUM_SUPPORTED_POINTS) = None /\
  ft5406_cycle ts known_ids regs = None.
Proof.
  intros Hlen Hn H99. split.
  - apply nth_error_None. lia.
  - apply ft5406_cycle_overrun.
    + unfold processed.
      destruct (Z.eqb_spec (num_points regs) 99); [contradiction|].
      destruct (Z.eqb_spec (num_points regs) 0) as [H0|_]; [|reflexivity].
      unfold MAXIMUM_SUPPORTED_POINTS in Hn. lia.
    + rewrite Hlen. unfold MAXIMUM_SUPPORTED_POINTS in *. lia.
Qed.

Lemma num_points_not_clamped_witness :
  nth_error (point frame_eleven) (Z.to_nat MAXIMUM_SUPPORTED_POINTS) = None /\
  ft5406_cycle panel 0 frame_eleven = None.
Proof.
  apply (num_points_not_clamped panel 0 frame_eleven).
  - reflexivity.
  - reflexivity.
  - discriminate.
Defined.

(** ** Skipped iterations (C3) *)

(** C3: when the copied count is 99, and when it is 0 with no id known, the
    iteration leaves [known_ids] as it was and makes no call on the input
    device: no slot report, no pointer emulation, no sync. *)
Theorem stale_or_idle_is_noop
  (ts : ft5406) (known_ids : Z) (regs : ft5406_regs) :
  num_points regs = 99 \/ (num_points regs = 0 /\ known_ids = 0) ->
  ft5406_cycle ts known_ids regs = Some (known_ids, []).
Proof.
  intros H. apply ft5406_cycle_skipped. unfold processed.
  destruct H as [-> | [-> ->]]; reflexivity.
Qed.

Lemma stale_or_idle_is_noop_witness :
  ft5406_cycle panel 8 frame_stale = Some (8, []) /\
  ft5406_cycle panel 0 frame_empty = Some (0, []).
Proof.
  split.
  - apply (stale_or_idle_is_noop panel 8 frame_stale). left. reflexivity.
  - apply (stale_or_idle_is_noop panel 0 frame_empty). right.
    split; reflexivity.
Defined.

(** ** Releases (C4) *)

Lemma touched_id_is_known ts known_ids regs known_ids' calls id :
  ft5406_cycle ts known_ids regs = Some (known_ids', calls) ->
  processed known_ids regs = true ->
  mentions regs id = true ->
  Z.testbit known_ids' id = true.
Proof.
  intros Hc Hp Hm.
  destruct (ft5406_cycle_inv _ _ _ _ _ Hc Hp) as [-> _].
  rewrite modified_of_testbit, Z.bits_0. exact Hm.
Qed.

Lemma processed_when_known known_ids regs id :
  Z.testbit known_ids id = true ->
  num_points regs <> 99 ->
  processed known_ids regs = true.
Proof.
  intros Hb H99. unfold processed.
  destruct (Z.eqb_spec (num_points regs) 99); [contradiction|].
  destruct (Z.eqb_spec known_ids 0) as [->|_].
  - rewrite Z.bits_0 in Hb. discriminate.
  - now rewrite andb_false_r.
Qed.

Lemma modified_of_absent regs id :
  mentions regs id = false ->
  Z.testbit (modified_of (observations regs) 0) id = false.
Proof.
  intros Hm. rewrite modified_of_testbit, Z.bits_0. exact Hm.
Qed.

(** An id that is not known and stays away is neither released nor taken
    up again, however many iterations follow. *)
Lemma absent_id_never_released ts id :
  0 <= id ->
  forall frames known_ids known_ids' trace,
    Z.testbit known_ids id = false ->
    forallb (stays_absent id) frames = true ->
    ft5406_thread ts known_ids frames = Some (known_ids', trace) ->
    Forall (fun calls => forall slot, release_count slot id calls = 0%nat)
      trace.
Proof.
  intros Hid.
  induction frames as [|regs frames IH];
    intros known_ids known_ids' trace Hb Habs Ht; cbn [ft5406_thread] in Ht.
  - injection Ht as <- <-. constructor.
  - cbn [forallb] in Habs. apply andb_prop in Habs as [Hregs Hrest].
    destruct (ft5406_cycle ts known_ids regs) as [[k calls]|] eqn:Hc;
      [|discriminate].
    destruct (ft5406_thread ts k frames) as [[k' rest]|] eqn:Hrun;
      [|discriminate].
    injection Ht as <- <-.
    destruct (processed known_ids regs) eqn:Hp.
    + destruct (ft5406_cycle_inv _ _ _ _ _ Hc Hp) as [-> ->].
      assert (Hm : mentions regs id = false).
      { unfold stays_absent in Hregs. unfold processed in Hp.
        destruct (num_points regs =? 99); [discriminate|].
        now apply negb_true_iff in Hregs. }
      constructor.
      * intros slot. unfold release_count.
        rewrite cycle_released_slots, to_release_count.
        rewrite released_of_testbit, Hb by assumption. reflexivity.
      * apply (IH _ _ _ (modified_of_absent _ _ Hm) Hrest Hrun).
    + rewrite ft5406_cycle_skipped in Hc by assumption.
      injection Hc as <- <-.
      constructor; [reflexivity|]. exact (IH _ _ _ Hb Hrest Hrun).
Qed.

(** On frames that keep to the firmware contract the thread never leaves
    the array, so every iteration has a result. *)
Lemma ft5406_thread_defined ts :
  forall frames known_ids,
    Forall in_contract frames ->
    exists known_ids' trace,
      ft5406_thread ts known_ids frames = Some (known_ids', trace) /\
      length trace = length frames.
Proof.
  induction frames as [|regs frames IH]; intros known_ids Hall;
    cbn [ft5406_thread].
  - now exists known_ids, [].
  - inversion Hall as [|? ? Hregs Hrest]; subst.
    destruct (in_contract_defined ts known_ids regs Hregs)
      as (k & calls & ->).
    destruct (IH k Hrest) as (k' & rest & -> & Hlen).
    exists k', (calls :: rest). cbn [length]. now rewrite Hlen.
Qed.

(** C4, as worded, fails for the ids the four bit field can hold beyond
    the ten slots.  Id 12 is reported down in one iteration and is gone in
    the next: the first leaves [known_ids = 4096], the second makes no
    release call at all and drops the id. *)
Lemma high_id_release_counterexample :
  touches frame_down12 12 = true /\
  mentions frame_empty 12 = false /\
  ft5406_thread panel 0 [frame_down12; frame_empty]
  = Some (0, [ [ input_mt_slot 12;
                 input_mt_report_slot_state MT_TOOL_FINGER true;
                 input_report_abs ABS_MT_POSITION_X 100;
                 input_report_abs ABS_MT_POSITION_Y 200;
                 input_mt_report_pointer_emulation true; input_sync ];
               [ input_mt_report_pointer_emulation true; input_sync ] ]) /\
  release_count 0 12
    [ input_mt_report_pointer_emulation true; input_sync ] = 0%nat.
Proof.
  repeat split; reflexivity.
Qed.

Lemma ft5406_thread_stale_prefix (ts : ft5406) (rest : list ft5406_regs) :
  forall stale known_ids known_ids' trace,
    forallb (fun regs => num_points regs =? 99) stale = true ->
    ft5406_thread ts known_ids (stale ++ rest) = Some (known_ids', trace) ->
    exists trace',
      ft5406_thread ts known_ids rest = Some (known_ids', trace') /\
      trace = repeat [] (length stale) ++ trace'.
Proof.
  induction stale as [|regs stale IH]; intros k k' trace Hst Hrun.
  - exists trace. now split.
  - cbn [forallb] in Hst. apply andb_prop in Hst as [H99 Hst].
    cbn [app ft5406_thread] in Hrun.
    rewrite ft5406_cycle_skipped in Hrun
      by (unfold processed; now rewrite H99).
    destruct (ft5406_thread ts k (stale ++ rest)) as [[k1 tr1]|] eqn:Hr;
      [|discriminate].
    injection Hrun as <- <-.
    destruct (IH _ _ _ Hst Hr) as (trace' & Hrest & ->).
    exists trace'. split; [assumption|reflexivity].
Qed.

(** C4, amended to the ten slots: an id below [MAXIMUM_SUPPORTED_POINTS]
    that a processed iteration reports as down or contact, and that no
    record of the next processed iteration carries, is released exactly once
    in that next iteration, however many stale polls (count 99, no call
    made) lie between the two; in the iterations after it, for as long as
    the id stays away, it is not released again. *)
Theorem released_exactly_once
  (ts : ft5406) (known_ids : Z) (first : ft5406_regs)
  (stale : list ft5406_regs) (next : ft5406_regs)
  (later : list ft5406_regs) (known_ids' : Z)
  (trace : list (list input_call)) (id : Z) :
  0 <= id < MAXIMUM_SUPPORTED_POINTS ->
  processed known_ids first = true ->
  touches first id = true ->
  forallb (fun regs => num_points regs =? 99) stale = true ->
  num_points next <> 99 ->
  mentions next id = false ->
  forallb (stays_absent id) later = true ->
  ft5406_thread ts known_ids (first :: stale ++ next :: later)
  = Some (known_ids', trace) ->
  exists calls_first calls_next calls_later,
    trace = calls_first :: repeat [] (length stale)
                           ++ calls_next :: calls_later /\
    (forall slot, release_count slot id calls_next = 1%nat) /\
    Forall (fun calls => forall slot, release_count slot id calls = 0%nat)
      calls_later.
Proof.
  intros Hid Hp Ht Hst H99 Hm Hlater Hrun.
  cbn [ft5406_thread] in Hrun.
  destruct (ft5406_cycle ts known_ids first) as [[k1 c1]|] eqn:Hc1;
    [|discriminate].
  destruct (ft5406_thread ts k1 (stale ++ next :: later))
    as [[k4 tr]|] eqn:Htail; [|discriminate].
  injection Hrun as <- <-.
  destruct (ft5406_thread_stale_prefix _ _ _ _ _ _ Hst Htail)
    as (tr' & Hnext & ->).
  cbn [ft5406_thread] in Hnext.
  destruct (ft5406_cycle ts k1 next) as [[k2 c2]|] eqn:Hc2;
    [|discriminate].
  destruct (ft5406_thread ts k2 later) as [[k3 rest]|] eqn:Hrest;
    [|discriminate].
  injection Hnext as <- <-.
  assert (Hk1 : Z.testbit k1 id = true).
  { eapply touched_id_is_known; eauto using touches_mentions. }
  pose proof (processed_when_known _ _ _ Hk1 H99) as Hp2.
  destruct (ft5406_cycle_inv _ _ _ _ _ Hc2 Hp2) as [-> ->].
  exists c1, (cycle_calls ts k1 next), rest.
  split; [reflexivity|]. split.
  - intros slot. unfold release_count.
    rewrite cycle_released_slots, to_release_count.
    rewrite released_of_testbit, Hk1, Hm by lia.
    destruct (Z.leb_spec 0 id), (Z.ltb_spec id MAXIMUM_SUPPORTED_POINTS);
      try reflexivity; lia.
  - eapply absent_id_never_released; eauto using modified_of_absent. lia.
Qed.

Lemma released_exactly_once_witness :
  exists calls_first calls_next calls_later,
    [ [ input_mt_slot 3;
        input_mt_report_slot_state MT_TOOL_FINGER true;
        input_report_abs ABS_MT_POSITION_X 100;
        input_report_abs ABS_MT_POSITION_Y 200;
        input_mt_report_pointer_emulation true; input_sync ];
      [];
      [];
      [ input_mt_slot 3;
        input_mt_report_slot_state MT_TOOL_FINGER false;
        input_mt_report_pointer_emulation true; input_sync ];
      [];
      [ input_mt_slot 12;
        input_mt_report_slot_state MT_TOOL_FINGER true;
        input_report_abs ABS_MT_POSITION_X 100;
        input_report_abs ABS_MT_POSITION_Y 200;
        input_mt_report_pointer_emulation true; input_sync ] ]
    = calls_first :: repeat [] (length [frame_stale; frame_stale])
                     ++ calls_next :: calls_later /\
    (forall slot, release_count slot 3 calls_next = 1%nat) /\
    Forall (fun calls => forall slot, release_count slot 3 calls = 0%nat)
      calls_later.
Proof.
  apply (released_exactly_once panel 0 frame_down3
           [frame_stale; frame_stale] frame_empty
           [frame_stale; frame_down12] 4096 _ 3).
  - unfold MAXIMUM_SUPPORTED_POINTS. lia.
  - reflexivity.
  - reflexivity.
  - reflexivity.
  - discriminate.
  - reflexivity.
  - reflexivity.
  - reflexivity.
Defined.

(** ** The enable attribute (C5) *)

(** C5: a write that asks for a change whose start or stop fails leaves
    [enable] as it was, but the value handed back to the writer is [count],
    the same as for a write that succeeded, and not an error code. *)
Theorem enable_store_failure_returns_count
  (buffer : Type) (kstrtouint : buffer -> Z * Z)
  (kthread_run : task_struct) (kthread_stop : task_struct -> Z)
  (ts : ft5406) (buf : buffer) (count val : Z) :
  kstrtouint buf = (0, val) ->
  enable ts <> negb (val =? 0) ->
  (val <> 0 /\ IS_ERR kthread_run = true) \/
  (val = 0 /\ kthread_stop (thread ts) <> 0) ->
  fst (enable_store buffer kstrtouint kthread_run kthread_stop ts buf count)
  = count /\
  enable
    (snd (enable_store buffer kstrtouint kthread_run kthread_stop ts buf count))
  = enable ts.
Proof.
  intros Hparse Hnew Hfail. unfold enable_store. rewrite Hparse.
  cbn [Z.eqb negb].
  destruct (Bool.eqb (enable ts) (negb (val =? 0))) eqn:Hsame.
  - apply Bool.eqb_prop in Hsame. contradiction.
  - destruct Hfail as [[Hval Herr] | [Hval Herr]].
    + apply Z.eqb_neq in Hval. rewrite Hval. cbn [negb thread set_thread].
      rewrite Herr. cbn. split; reflexivity.
    + subst val. cbn [Z.eqb negb].
      apply Z.eqb_neq in Herr. rewrite Herr. cbn. split; reflexivity.
Qed.

Lemma enable_store_failure_returns_count_witness :
  fst (enable_store Z (fun n => (0, n)) (task 2) (fun _ => -4) panel 0 2) = 2 /\
  enable
    (snd (enable_store Z (fun n => (0, n)) (task 2) (fun _ => -4) panel 0 2))
  = true.
Proof.
  apply (enable_store_failure_returns_count Z (fun n => (0, n)) (task 2)
           (fun _ => -4) panel 0 2 0).
  - reflexivity.
  - discriminate.
  - right. split; [reflexivity | discriminate].
Defined.

(** A write of the value the device already has changes nothing and hands
    back [count]. *)
Lemma enable_store_same_value
  (buffer : Type) (kstrtouint : buffer -> Z * Z)
  (kthread_run : task_struct) (kthread_stop : task_struct -> Z)
  (ts : ft5406) (buf : buffer) (count val : Z) :
  kstrtouint buf = (0, val) ->
  enable ts = negb (val =? 0) ->
  enable_store buffer kstrtouint kthread_run kthread_stop ts buf count
  = (count, ts).
Proof.
  intros Hparse Hsame. unfold enable_store. rewrite Hparse, Hsame.
  cbn [Z.eqb negb]. now rewrite Bool.eqb_reflx.
Qed.

(** ** Orientation (C6, C9) *)

Lemma transform_refines_spec (ts : ft5406) (x y : Z) :
  transform ts x y = Spec.transform x y (config_of ts).
Proof.
  unfold transform, Spec.transform, config_of. cbn.
  destruct (hflip ts =? 0), (vflip ts =? 0), (xyswap ts =? 0); reflexivity.
Qed.

(** C6: for a record of event type down or contact, the position the loop
    body reports is the one the specification's three steps give from the
    raw position: flip in x when [hflip], flip in y when [vflip], then swap
    when [xyswap].  With [hflip] set and [max_x = 800], raw x = 100 is
    reported as 699. *)
Theorem reported_position_is_transform
  (ts : ft5406) (p : ft5406_touch) (modified_ids : Z) :
  is_down_or_contact p = true ->
  snd (report_point ts p modified_ids)
  = [ input_mt_slot (point_touchid p);
      input_mt_report_slot_state MT_TOOL_FINGER true;
      input_report_abs ABS_MT_POSITION_X
        (fst (Spec.transform (point_x p) (point_y p) (config_of ts)));
      input_report_abs ABS_MT_POSITION_Y
        (snd (Spec.transform (point_x p) (point_y p) (config_of ts))) ] /\
  (forall t e my v y,
      fst (transform (mk_ft5406 t e 800 my 1 v 0) 100 y) = 699).
Proof.
  intros Hk. split.
  - rewrite report_point_eq, Hk. unfold update_block.
    rewrite transform_refines_spec.
    now destruct (Spec.transform (point_x p) (point_y p) (config_of ts)).
  - intros t e my v y. unfold transform. cbn.
    now destruct (v =? 0).
Qed.

Lemma reported_position_is_transform_witness :
  is_down_or_contact down3 = true /\
  snd (report_point panel_hflip down3 0)
  = [ input_mt_slot 3;
      input_mt_report_slot_state MT_TOOL_FINGER true;
      input_report_abs ABS_MT_POSITION_X 699;
      input_report_abs ABS_MT_POSITION_Y 200 ].
Proof.
  split; [reflexivity|].
  apply (reported_position_is_transform panel_hflip down3 0). reflexivity.
Defined.

(** C9: applied twice, the orientation step gives back the position it
    started from, both when it only flips (in x, in y or in both, with the
    same [max_x] and [max_y]) and when it only swaps: a flip is its own
    inverse, and so is the swap. *)
Theorem transform_twice (ts : ft5406) (x y : Z) :
  xyswap ts = 0 \/ (hflip ts = 0 /\ vflip ts = 0) ->
  transform ts (fst (transform ts x y)) (snd (transform ts x y)) = (x, y).
Proof.
  unfold transform. intros [Hs | [Hh Hv]].
  - rewrite Hs. cbn [Z.eqb fst snd].
    destruct (hflip ts =? 0), (vflip ts =? 0); f_equal; lia.
  - rewrite Hh, Hv. cbn [Z.eqb].
    destruct (xyswap ts =? 0); reflexivity.
Qed.

Lemma transform_twice_witness :
  transform panel_hflip 100 200 = (699, 200) /\
  transform panel_hflip 699 200 = (100, 200) /\
  transform panel_swapped 100 200 = (200, 100) /\
  transform panel_swapped 200 100 = (100, 200).
Proof.
  split; [reflexivity|]. split; [|split; [reflexivity|]].
  - apply (transform_twice panel_hflip 100 200). left. reflexivity.
  - apply (transform_twice panel_swapped 100 200). right.
    split; reflexivity.
Defined.

(** ** Updates and releases of one iteration (C7, C8, C10) *)

(** C7: in the calls of one iteration no slot is both reported in contact
    and reported released. *)
Theorem update_release_disjoint
  (ts : ft5406) (known_ids : Z) (regs : ft5406_regs)
  (known_ids' : Z) (calls : list input_call) (slot id : Z) :
  ft5406_cycle ts known_ids regs = Some (known_ids', calls) ->
  In id (updated_slots slot calls) ->
  ~ In id (released_slots slot calls).
Proof.
  intros Hc Hup Hrel.
  destruct (processed known_ids regs) eqn:Hp.
  - destruct (ft5406_cycle_inv _ _ _ _ _ Hc Hp) as [_ ->].
    rewrite cycle_updated_slots in Hup.
    rewrite cycle_released_slots in Hrel.
    apply updated_slot_touches, touches_mentions in Hup.
    apply to_release_In in Hrel as [Hbit [Hid _]].
    rewrite released_of_testbit, Hup in Hbit by assumption.
    rewrite andb_false_r in Hbit. discriminate.
  - rewrite ft5406_cycle_skipped in Hc by assumption.
    injection Hc as <- <-. exact Hup.
Qed.

Lemma update_release_disjoint_witness :
  In 3 (updated_slots 0
          [ input_mt_slot 3;
            input_mt_report_slot_state MT_TOOL_FINGER true;
            input_report_abs ABS_MT_POSITION_X 100;
            input_report_abs ABS_MT_POSITION_Y 200;
            input_mt_slot 0;
            input_mt_report_slot_state MT_TOOL_FINGER false;
            input_mt_report_pointer_emulation true; input_sync ]) /\
  ~ In 3 (released_slots 0
            [ input_mt_slot 3;
              input_mt_report_slot_state MT_TOOL_FINGER true;
              input_report_abs ABS_MT_POSITION_X 100;
              input_report_abs ABS_MT_POSITION_Y 200;
              input_mt_slot 0;
              input_mt_report_slot_state MT_TOOL_FINGER false;
              input_mt_report_pointer_emulation true; input_sync ]).
Proof.
  split; [left; reflexivity|].
  apply (update_release_disjoint panel 9 frame_down3 8 _ 0 3).
  - reflexivity.
  - left. reflexivity.
Defined.

(** C8: the calls of an iteration that is not skipped come in this order:
    the position reports of the down and contact records, in record order;
    then the releases, by rising slot; then the one pointer emulation call;
    then the sync. *)
Theorem cycle_calls_in_order
  (ts : ft5406) (known_ids : Z) (regs : ft5406_regs)
  (known_ids' : Z) (calls : list input_call) :
  ft5406_cycle ts known_ids regs = Some (known_ids', calls) ->
  processed known_ids regs = true ->
  calls
  = flat_map (update_block ts)
      (filter is_down_or_contact (observations regs))
    ++ flat_map release_block (to_release (released_of known_ids regs))
    ++ [ input_mt_report_pointer_emulation true; input_sync ].
Proof.
  intros Hc Hp.
  destruct (ft5406_cycle_inv _ _ _ _ _ Hc Hp) as [_ ->].
  reflexivity.
Qed.

Lemma cycle_calls_in_order_witness :
  [ input_mt_slot 3;
    input_mt_report_slot_state MT_TOOL_FINGER true;
    input_report_abs ABS_MT_POSITION_X 100;
    input_report_abs ABS_MT_POSITION_Y 200;
    input_mt_slot 0;
    input_mt_report_slot_state MT_TOOL_FINGER false;
    input_mt_report_pointer_emulation true; input_sync ]
  = flat_map (update_block panel)
      (filter is_down_or_contact (observations frame_down3))
    ++ flat_map release_block (to_release (released_of 9 frame_down3))
    ++ [ input_mt_report_pointer_emulation true; input_sync ].
Proof.
  apply (cycle_calls_in_order panel 9 frame_down3 8); reflexivity.
Defined.

(** C10: every release an iteration reports is for a slot from 0 to 9.  An
    id from 10 to 15 that is known and that no record of a processed frame
    carries is dropped from [known_ids] with no release reported for it. *)
Theorem high_id_dropped_silently
  (ts : ft5406) (known_ids : Z) (regs : ft5406_regs)
  (known_ids' : Z) (calls : list input_call) (slot : Z) :
  ft5406_cycle ts known_ids regs = Some (known_ids', calls) ->
  Forall (fun i => 0 <= i < MAXIMUM_SUPPORTED_POINTS)
    (released_slots slot calls) /\
  (forall id,
      MAXIMUM_SUPPORTED_POINTS <= id < 16 ->
      Z.testbit known_ids id = true ->
      num_points regs <> 99 ->
      mentions regs id = false ->
      Z.testbit known_ids' id = false /\
      ~ In id (released_slots slot calls)).
Proof.
  intros Hc. split.
  - destruct (processed known_ids regs) eqn:Hp.
    + destruct (ft5406_cycle_inv _ _ _ _ _ Hc Hp) as [_ ->].
      rewrite cycle_released_slots.
      apply Forall_forall. intros i Hi. now apply to_release_In in Hi.
    + rewrite ft5406_cycle_skipped in Hc by assumption.
      injection Hc as <- <-. constructor.
  - intros id Hid Hb H99 Hm.
    pose proof (processed_when_known _ _ _ Hb H99) as Hp.
    destruct (ft5406_cycle_inv _ _ _ _ _ Hc Hp) as [-> ->].
    rewrite cycle_released_slots. split.
    + now apply modified_of_absent.
    + intros Hin. apply to_release_In in Hin as [_ Hrange]. lia.
Qed.

Lemma high_id_dropped_silently_witness :
  Forall (fun i => 0 <= i < MAXIMUM_SUPPORTED_POINTS)
    (released_slots 0
       [ input_mt_slot 3;
         input_mt_report_slot_state MT_TOOL_FINGER false;
         input_mt_report_pointer_emulation true; input_sync ]) /\
  Z.testbit 0 12 = false /\
  ~ In 12 (released_slots 0
             [ input_mt_slot 3;
               input_mt_report_slot_state MT_TOOL_FINGER false;
               input_mt_report_pointer_emulation true; input_sync ]).
Proof.
  destruct (high_id_dropped_silently panel 4104 frame_empty 0
              [ input_mt_slot 3;
                input_mt_report_slot_state MT_TOOL_FINGER false;
                input_mt_report_pointer_emulation true; input_sync ]
              0 eq_refl) as [Hslots Hhigh].
  split; [exact Hslots|].
  apply (Hhigh 12).
  - unfold MAXIMUM_SUPPORTED_POINTS. lia.
  - reflexivity.
  - discriminate.
  - reflexivity.
Defined.

(** * Further properties of the touchscreen thread *)

(** ** Decoding *)

Lemma nibble_byte_range (h l : Z) :
  0 <= l < 256 -> 0 <= Z.shiftl (Z.land h 0xf) 8 + l < 4096.
Proof.
  intros Hl.
  assert (Hn : 0 <= Z.land h 0xf < 16).
  { change 0xf with (Z.ones 4). rewrite Z.land_ones by lia.
    apply Z.mod_pos_bound. reflexivity. }
  rewrite Z.shiftl_mul_pow2 by lia.
  change (2 ^ 8) with 256. lia.
Qed.

(** X1: with [xl] and [yl] bytes, a decoded record has both coordinates in
    0..4095, its id in 0..15 and its event type in 0..3, whatever [xh] and
    [yh] hold. *)
Theorem decoded_fields_in_range (p : ft5406_touch) :
  0 <= xl p < 256 ->
  0 <= yl p < 256 ->
  0 <= point_x p < 4096 /\
  0 <= point_y p < 4096 /\
  0 <= point_touchid p < 16 /\
  0 <= point_event_type p < 4.
Proof.
  intros Hx Hy. unfold point_x, point_y.
  repeat split;
    try apply (nibble_byte_range (xh p) (xl p) Hx);
    try apply (nibble_byte_range (yh p) (yl p) Hy);
    try apply point_touchid_range; apply point_event_type_range.
Qed.

Lemma decoded_fields_in_range_witness :
  0 <= point_x down12 < 4096 /\
  0 <= point_y down12 < 4096 /\
  0 <= point_touchid down12 < 16 /\
  0 <= point_event_type down12 < 4.
Proof.
  apply (decoded_fields_in_range down12); cbn; lia.
Defined.

(** ** The identity set *)

Lemma lor_below_pow2 (a b n : Z) :
  0 <= n -> 0 <= a < 2 ^ n -> 0 <= b < 2 ^ n -> 0 <= Z.lor a b < 2 ^ n.
Proof.
  intros Hn Ha Hb.
  assert (Hnn : 0 <= Z.lor a b) by (apply Z.lor_nonneg; lia).
  split; [assumption|].
  destruct (Z.eq_dec (Z.lor a b) 0) as [->|Hne].
  - apply Z.pow_pos_nonneg; lia.
  - apply Z.log2_lt_pow2; [lia|].
    rewrite Z.log2_lor by lia.
    assert (Hlog : forall c, 0 <= c < 2 ^ n -> Z.log2 c < n \/ c = 0).
    { intros c Hc. destruct (Z.eq_dec c 0); [now right|left].
      apply Z.log2_lt_pow2; lia. }
    pose proof (Z.log2_nonneg a). pose proof (Z.log2_nonneg b).
    destruct (Hlog a Ha) as [Hla| ->], (Hlog b Hb) as [Hlb| ->];
      change (Z.log2 0) with 0 in *; try lia.
    cbn in Hne. contradiction.
Qed.

Lemma modified_of_sixteen_bits pts :
  forall m, 0 <= m < 2 ^ 16 -> 0 <= modified_of pts m < 2 ^ 16.
Proof.
  induction pts as [|p pts IH]; intros m Hm; cbn [modified_of fold_left].
  - exact Hm.
  - apply IH. apply lor_below_pow2; [lia|assumption|].
    unfold ID_TO_BIT. rewrite Z.shiftl_1_l.
    pose proof (point_touchid_range p) as Hr.
    split; [apply Z.pow_nonneg; lia|].
    apply Z.pow_lt_mono_r; lia.
Qed.

(** X2: [known_ids] never leaves 16 bits.  It starts at 0 in the thread;
    from any value in 0..65535, whatever the frames hold, every run that
    stays inside the array ends with [known_ids] in 0..65535. *)
Theorem known_ids_sixteen_bits (ts : ft5406) (frames : list ft5406_regs) :
  forall known_ids known_ids' trace,
    0 <= known_ids < 65536 ->
    ft5406_thread ts known_ids frames = Some (known_ids', trace) ->
    0 <= known_ids' < 65536.
Proof.
  induction frames as [|regs frames IH]; intros k k' trace Hk Hrun;
    cbn [ft5406_thread] in Hrun.
  - injection Hrun as <- _. exact Hk.
  - destruct (ft5406_cycle ts k regs) as [[k1 c1]|] eqn:Hc; [|discriminate].
    destruct (ft5406_thread ts k1 frames) as [[k2 rest]|] eqn:Hrest;
      [|discriminate].
    injection Hrun as <- _.
    apply (IH k1 k2 rest); [|assumption].
    destruct (processed k regs) eqn:Hp.
    + destruct (ft5406_cycle_inv _ _ _ _ _ Hc Hp) as [-> _].
      apply (modified_of_sixteen_bits _ 0). split; [lia|reflexivity].
    + rewrite ft5406_cycle_skipped in Hc by assumption.
      injection Hc as <- _. exact Hk.
Qed.

Lemma known_ids_sixteen_bits_witness : 0 <= 4096 < 65536.
Proof.
  apply (known_ids_sixteen_bits panel [frame_down3; frame_stale; frame_down12]
           0 4096
           [ [ input_mt_slot 3;
               input_mt_report_slot_state MT_TOOL_FINGER true;
               input_report_abs ABS_MT_POSITION_X 100;
               input_report_abs ABS_MT_POSITION_Y 200;
               input_mt_report_pointer_emulation true; input_sync ];
             [];
             [ input_mt_slot 12;
               input_mt_report_slot_state MT_TOOL_FINGER true;
               input_report_abs ABS_MT_POSITION_X 100;
               input_report_abs ABS_MT_POSITION_Y 200;
               input_mt_slot 3;
               input_mt_report_slot_state MT_TOOL_FINGER false;
               input_mt_report_pointer_emulation true; input_sync ] ]).
  - lia.
  - reflexivity.
Defined.

(** X3: for a frame of ten records, an iteration runs off the array
    exactly when the count is above ten and is not 99; every other count
    gives a result. *)
Theorem cycle_undefined_iff
  (ts : ft5406) (known_ids : Z) (regs : ft5406_regs) :
  length (point regs) = Z.to_nat MAXIMUM_SUPPORTED_POINTS ->
  (ft5406_cycle ts known_ids regs = None
   <-> MAXIMUM_SUPPORTED_POINTS < num_points regs /\ num_points regs <> 99).
Proof.
  intros Hlen. unfold MAXIMUM_SUPPORTED_POINTS in *.
  destruct (processed known_ids regs) eqn:Hp.
  - destruct (Nat.le_gt_cases (Z.to_nat (num_points regs))
                (length (point regs))) as [Hle|Hgt].
    + rewrite ft5406_cycle_processed by assumption.
      split; [discriminate|]. intros [Hn _]. lia.
    + rewrite ft5406_cycle_overrun by assumption.
      split; [|reflexivity]. intros _. split; [lia|].
      unfold processed in Hp. intros H99. rewrite H99 in Hp. discriminate.
  - rewrite ft5406_cycle_skipped by assumption.
    split; [discriminate|]. intros [Hn H99].
    unfold processed in Hp.
    destruct (Z.eqb_spec (num_points regs) 99); [contradiction|].
    destruct (Z.eqb_spec (num_points regs) 0); [lia|discriminate].
Qed.

Lemma cycle_undefined_iff_witness :
  ft5406_cycle panel 0 frame_eleven = None
  <-> MAXIMUM_SUPPORTED_POINTS < num_points frame_eleven /\
      num_points frame_eleven <> 99.
Proof.
  apply (cycle_undefined_iff panel 0 frame_eleven). reflexivity.
Defined.

(** ** Slot reports *)

(** X4: every slot state the thread reports is preceded by its own slot
    selection, so what an iteration reports does not depend on the slot the
    input core had selected before. *)
Theorem reports_select_their_slot
  (ts : ft5406) (known_ids : Z) (regs : ft5406_regs)
  (known_ids' : Z) (calls : list input_call) (slot slot' : Z) :
  ft5406_cycle ts known_ids regs = Some (known_ids', calls) ->
  slot_reports slot calls = slot_reports slot' calls.
Proof.
  intros Hc.
  destruct (processed known_ids regs) eqn:Hp.
  - destruct (ft5406_cycle_inv _ _ _ _ _ Hc Hp) as [_ ->].
    now rewrite !cycle_calls_reports.
  - rewrite ft5406_cycle_skipped in Hc by assumption.
    injection Hc as _ <-. reflexivity.
Qed.

Lemma reports_select_their_slot_witness :
  slot_reports 0
    [ input_mt_slot 3;
      input_mt_report_slot_state MT_TOOL_FINGER true;
      input_report_abs ABS_MT_POSITION_X 100;
      input_report_abs ABS_MT_POSITION_Y 200;
      input_mt_slot 0;
      input_mt_report_slot_state MT_TOOL_FINGER false;
      input_mt_report_pointer_emulation true; input_sync ]
  = slot_reports 7
      [ input_mt_slot 3;
        input_mt_report_slot_state MT_TOOL_FINGER true;
        input_report_abs ABS_MT_POSITION_X 100;
        input_report_abs ABS_MT_POSITION_Y 200;
        input_mt_slot 0;
        input_mt_report_slot_state MT_TOOL_FINGER false;
        input_mt_report_pointer_emulation true; input_sync ].
Proof.
  apply (reports_select_their_slot panel 9 frame_down3 8 _ 0 7).
  reflexivity.
Defined.

Lemma indices_sorted :
  forall todo i, StronglySorted Z.lt (indices i todo).
Proof.
  induction todo as [|todo IH]; intros i; cbn [indices]; constructor.
  - apply IH.
  - apply Forall_forall. intros j Hj. apply indices_range in Hj. lia.
Qed.

Lemma filter_sorted (f : Z -> bool) (l : list Z) :
  StronglySorted Z.lt l -> StronglySorted Z.lt (filter f l).
Proof.
  induction 1 as [|a l Hs IH Ha]; cbn [filter]; [constructor|].
  destruct (f a); [|assumption].
  constructor; [assumption|].
  apply Forall_forall. intros j [Hj _]%filter_In.
  rewrite Forall_forall in Ha. now apply Ha.
Qed.

(** X5: the releases of an iteration come by strictly rising slot number;
    in particular no slot is released twice in one iteration. *)
Theorem releases_rise
  (ts : ft5406) (known_ids : Z) (regs : ft5406_regs)
  (known_ids' : Z) (calls : list input_call) (slot : Z) :
  ft5406_cycle ts known_ids regs = Some (known_ids', calls) ->
  StronglySorted Z.lt (released_slots slot calls).
Proof.
  intros Hc.
  destruct (processed known_ids regs) eqn:Hp.
  - destruct (ft5406_cycle_inv _ _ _ _ _ Hc Hp) as [_ ->].
    rewrite cycle_released_slots. apply filter_sorted, indices_sorted.
  - rewrite ft5406_cycle_skipped in Hc by assumption.
    injection Hc as _ <-. constructor.
Qed.

Lemma releases_rise_witness : StronglySorted Z.lt [0; 3; 9].
Proof.
  apply (releases_rise panel 521 frame_empty 0
           [ input_mt_slot 0;
             input_mt_report_slot_state MT_TOOL_FINGER false;
             input_mt_slot 3;
             input_mt_report_slot_state MT_TOOL_FINGER false;
             input_mt_slot 9;
             input_mt_report_slot_state MT_TOOL_FINGER false;
             input_mt_report_pointer_emulation true; input_sync ] 0).
  reflexivity.
Defined.

(** X6: in an iteration that is not skipped, a slot is released if and
    only if it is below ten, its id was known, and no visited record
    carries that id.  The thread never releases an id it did not know. *)
Theorem released_iff
  (ts : ft5406) (known_ids : Z) (regs : ft5406_regs)
  (known_ids' : Z) (calls : list input_call) (slot id : Z) :
  ft5406_cycle ts known_ids regs = Some (known_ids', calls) ->
  processed known_ids regs = true ->
  (In id (released_slots slot calls)
   <-> 0 <= id < MAXIMUM_SUPPORTED_POINTS /\
       Z.testbit known_ids id = true /\
       mentions regs id = false).
Proof.
  intros Hc Hp.
  destruct (ft5406_cycle_inv _ _ _ _ _ Hc Hp) as [_ ->].
  rewrite cycle_released_slots, to_release_In. split.
  - intros [Hb Hid]. rewrite released_of_testbit in Hb by lia.
    apply andb_prop in Hb as [Hk Hm]. apply negb_true_iff in Hm. auto.
  - intros (Hid & Hk & Hm). split; [|assumption].
    rewrite released_of_testbit, Hk, Hm by lia. reflexivity.
Qed.

Lemma released_iff_witness :
  In 3 (released_slots 0
          [ input_mt_slot 3;
            input_mt_report_slot_state MT_TOOL_FINGER false;
            input_mt_report_pointer_emulation true; input_sync ])
  <-> 0 <= 3 < MAXIMUM_SUPPORTED_POINTS /\
      Z.testbit 8 3 = true /\
      mentions frame_empty 3 = false.
Proof.
  apply (released_iff panel 8 frame_empty 0 _ 0 3); reflexivity.
Defined.

(** X7: handling the same frame a second time changes nothing more: the
    second pass leaves [known_ids] as the first left it, releases no slot
    and reports the same slots in contact. *)
Theorem same_frame_again
  (ts : ft5406) (known_ids : Z) (regs : ft5406_regs)
  (known_ids' : Z) (calls : list input_call) (slot : Z) :
  ft5406_cycle ts known_ids regs = Some (known_ids', calls) ->
  processed known_ids regs = true ->
  exists calls',
    ft5406_cycle ts known_ids' regs = Some (known_ids', calls') /\
    released_slots slot calls' = [] /\
    updated_slots slot calls' = updated_slots slot calls.
Proof.
  intros Hc Hp.
  assert (Hlen : (Z.to_nat (num_points regs) <= length (point regs))%nat).
  { destruct (Nat.le_gt_cases (Z.to_nat (num_points regs))
                (length (point regs))) as [H|H]; [assumption|].
    rewrite ft5406_cycle_overrun in Hc by assumption. discriminate. }
  destruct (ft5406_cycle_inv _ _ _ _ _ Hc Hp) as [-> ->].
  destruct (processed (modified_of (observations regs) 0) regs) eqn:Hp2.
  - exists (cycle_calls ts (modified_of (observations regs) 0) regs).
    split; [now apply ft5406_cycle_processed|]. split.
    + rewrite cycle_released_slots. unfold released_of.
      rewrite Z.land_lnot_diag. unfold to_release.
      apply filter_testbit_0.
    + now rewrite !cycle_updated_slots.
  - exists []. split; [now apply ft5406_cycle_skipped|].
    split; [reflexivity|].
    rewrite cycle_updated_slots.
    unfold processed in Hp, Hp2.
    destruct (num_points regs =? 99); [discriminate|].
    destruct (Z.eqb_spec (num_points regs) 0) as [H0|H0].
    + unfold observations. rewrite H0. reflexivity.
    + discriminate.
Qed.

Lemma same_frame_again_witness :
  exists calls',
    ft5406_cycle panel 8 frame_down3 = Some (8, calls') /\
    released_slots 0 calls' = [] /\
    updated_slots 0 calls'
    = updated_slots 0
        [ input_mt_slot 3;
          input_mt_report_slot_state MT_TOOL_FINGER true;
          input_report_abs ABS_MT_POSITION_X 100;
          input_report_abs ABS_MT_POSITION_Y 200;
          input_mt_slot 0;
          input_mt_report_slot_state MT_TOOL_FINGER false;
          input_mt_report_pointer_emulation true; input_sync ].
Proof.
  apply (same_frame_again panel 9 frame_down3 8 _ 0); reflexivity.
Defined.

(** ** Reported positions *)

Lemma reported_abs_app (code : abs_code) (a b : list input_call) :
  reported_abs code (a ++ b) = reported_abs code a ++ reported_abs code b.
Proof.
  induction a as [|c a IH]; cbn [app reported_abs]; [reflexivity|].
  destruct c as [| | c v | |]; try assumption.
  destruct code, c; cbn [app]; now rewrite IH.
Qed.

Lemma reported_abs_release_blocks (code : abs_code) (ids : list Z) :
  reported_abs code (flat_map release_block ids) = [].
Proof.
  induction ids as [|i ids IH]; cbn; [reflexivity|assumption].
Qed.

Lemma reported_abs_update_calls (ts : ft5406) (code : abs_code) pts :
  reported_abs code (update_calls ts pts)
  = map (fun p =>
           match code with
           | ABS_MT_POSITION_X => fst (transform ts (point_x p) (point_y p))
           | ABS_MT_POSITION_Y => snd (transform ts (point_x p) (point_y p))
           end) (filter is_down_or_contact pts).
Proof.
  induction pts as [|p pts IH]; [reflexivity|].
  rewrite update_calls_cons. cbn [filter].
  destruct (is_down_or_contact p); [|exact IH].
  rewrite reported_abs_app, IH. unfold update_block. cbn [map].
  destruct (transform ts (point_x p) (point_y p)) as [x y].
  destruct code; reflexivity.
Qed.

Lemma cycle_reported_abs ts known_ids regs code :
  reported_abs code (cycle_calls ts known_ids regs)
  = map (fun p =>
           match code with
           | ABS_MT_POSITION_X => fst (transform ts (point_x p) (point_y p))
           | ABS_MT_POSITION_Y => snd (transform ts (point_x p) (point_y p))
           end) (filter is_down_or_contact (observations regs)).
Proof.
  unfold cycle_calls.
  rewrite !reported_abs_app, reported_abs_release_blocks,
    reported_abs_update_calls.
  cbn [reported_abs app]. apply app_nil_r.
Qed.

(** The range [ft5406_probe] declares for each axis (lines 340-343). *)
Lemma transform_on_screen (ts : ft5406) (x y : Z) :
  0 <= x < max_x ts -> 0 <= y < max_y ts ->
  0 <= fst (transform ts x y)
    < (if negb (xyswap ts =? 0) then max_y ts else max_x ts) /\
  0 <= snd (transform ts x y)
    < (if negb (xyswap ts =? 0) then max_x ts else max_y ts).
Proof.
  intros Hx Hy. unfold transform.
  destruct (hflip ts =? 0), (vflip ts =? 0), (xyswap ts =? 0);
    cbn [fst snd negb]; lia.
Qed.

Lemma cycle_positions_on_screen ts known_ids regs known_ids' calls :
  ft5406_cycle ts known_ids regs = Some (known_ids', calls) ->
  forallb (raw_in_screen ts) (observations regs) = true ->
  Forall (fun v => 0 <= v
                   < (if negb (xyswap ts =? 0) then max_y ts else max_x ts))
    (reported_abs ABS_MT_POSITION_X calls) /\
  Forall (fun v => 0 <= v
                   < (if negb (xyswap ts =? 0) then max_x ts else max_y ts))
    (reported_abs ABS_MT_POSITION_Y calls).
Proof.
  intros Hc Hraw.
  destruct (processed known_ids regs) eqn:Hp.
  - destruct (ft5406_cycle_inv _ _ _ _ _ Hc Hp) as [_ ->].
    rewrite !cycle_reported_abs.
    rewrite forallb_forall in Hraw.
    split; apply Forall_forall; intros v Hv;
      apply in_map_iff in Hv as (p & <- & [Hin Hk]%filter_In);
      specialize (Hraw p Hin); unfold raw_in_screen in Hraw;
      rewrite Hk in Hraw; cbn [negb orb] in Hraw;
      apply andb_prop in Hraw as [Hraw Hy2];
      apply andb_prop in Hraw as [Hraw Hy1];
      apply andb_prop in Hraw as [Hx1 Hx2];
      apply Z.leb_le in Hx1, Hy1; apply Z.ltb_lt in Hx2, Hy2;
      apply transform_on_screen; lia.
  - rewrite ft5406_cycle_skipped in Hc by assumption.
    injection Hc as _ <-. split; constructor.
Qed.

(** X8: positions are not clamped.  With the x flip on and no swap, a down
    or contact record whose raw x is at or beyond [max_x] is reported with a
    negative x. *)
Theorem flip_beyond_screen_is_negative
  (ts : ft5406) (p : ft5406_touch) (modified_ids : Z) :
  is_down_or_contact p = true ->
  hflip ts <> 0 ->
  xyswap ts = 0 ->
  max_x ts <= point_x p ->
  reported_abs ABS_MT_POSITION_X (snd (report_point ts p modified_ids))
  = [max_x ts - 1 - point_x p] /\
  max_x ts - 1 - point_x p < 0.
Proof.
  intros Hk Hh Hs Hx. split; [|lia].
  rewrite report_point_eq, Hk. unfold update_block, transform.
  apply Z.eqb_neq in Hh. rewrite Hh, Hs. reflexivity.
Qed.

Lemma flip_beyond_screen_is_negative_witness :
  reported_abs ABS_MT_POSITION_X
    (snd (report_point panel_hflip (mk_touch 0x03 0x84 0x30 200 0 0) 0))
  = [800 - 1 - point_x (mk_touch 0x03 0x84 0x30 200 0 0)] /\
  800 - 1 - point_x (mk_touch 0x03 0x84 0x30 200 0 0) < 0.
Proof.
  apply (flip_beyond_screen_is_negative panel_hflip
           (mk_touch 0x03 0x84 0x30 200 0 0) 0).
  - reflexivity.
  - discriminate.
  - reflexivity.
  - cbn. lia.
Defined.

(** ** The shared buffer *)

Lemma ft5406_thread_io_quiet ts :
  forall writes known_ids buf i known_ids' buf' trace,
    nth_error writes i = Some None ->
    (i = 0%nat -> num_points buf = 99) ->
    ft5406_thread_io ts known_ids buf writes
    = Some (known_ids', buf', trace) ->
    nth_error trace i = Some [].
Proof.
  induction writes as [|w writes IH];
    intros k buf i k' buf' trace Hw H0 Hrun.
  - destruct i; discriminate.
  - cbn [ft5406_thread_io ft5406_fetch] in Hrun.
    destruct (ft5406_cycle ts k (firmware_write w buf))
      as [[k1 c1]|] eqn:Hc; [|discriminate].
    destruct (ft5406_thread_io ts k1 _ writes) as [[[k2 b2] rest]|] eqn:Hr;
      [|discriminate].
    injection Hrun as <- <- <-.
    destruct i as [|i]; cbn [nth_error] in *.
    + injection Hw as ->. cbn [firmware_write] in Hc.
      rewrite ft5406_cycle_skipped in Hc.
      * injection Hc as _ <-. reflexivity.
      * unfold processed. now rewrite H0.
    + eapply IH; [exact Hw| |exact Hr]. reflexivity.
Qed.

(** X9: a frame is handled once.  The thread marks the buffer read after
    copying it, so an iteration before which the firmware stored nothing
    makes no call on the input device, however long the previous frame stays
    in the buffer. *)
Theorem unwritten_buffer_is_skipped
  (ts : ft5406) (known_ids : Z) (buf : ft5406_regs)
  (writes : list (option ft5406_regs)) (i : nat)
  (known_ids' : Z) (buf' : ft5406_regs) (trace : list (list input_call)) :
  nth_error writes (S i) = Some None ->
  ft5406_thread_io ts known_ids buf writes = Some (known_ids', buf', trace) ->
  nth_error trace (S i) = Some [].
Proof.
  intros Hw Hrun.
  eapply ft5406_thread_io_quiet; [exact Hw| |exact Hrun]. discriminate.
Qed.

Lemma unwritten_buffer_is_skipped_witness :
  ft5406_thread_io panel 0 frame_empty
    [Some frame_down3; None; None; Some frame_empty]
  = Some (0, frame 99 [],
          [ [ input_mt_slot 3;
              input_mt_report_slot_state MT_TOOL_FINGER true;
              input_report_abs ABS_MT_POSITION_X 100;
              input_report_abs ABS_MT_POSITION_Y 200;
              input_mt_report_pointer_emulation true; input_sync ];
            []; [];
            [ input_mt_slot 3;
              input_mt_report_slot_state MT_TOOL_FINGER false;
              input_mt_report_pointer_emulation true; input_sync ] ]) /\
  nth_error
    [ [ input_mt_slot 3;
        input_mt_report_slot_state MT_TOOL_FINGER true;
        input_report_abs ABS_MT_POSITION_X 100;
        input_report_abs ABS_MT_POSITION_Y 200;
        input_mt_report_pointer_emulation true; input_sync ];
      []; [];
      [ input_mt_slot 3;
        input_mt_report_slot_state MT_TOOL_FINGER false;
        input_mt_report_pointer_emulation true; input_sync ] ] 2
  = Some [].
Proof.
  split; [reflexivity|].
  apply (unwritten_buffer_is_skipped panel 0 frame_empty
           [Some frame_down3; None; None; Some frame_empty] 1
           0 (frame 99 [])).
  - reflexivity.
  - reflexivity.
Defined.

(** * The enable attribute, probe and remove *)

(** X10: the value a write hands back says nothing about the thread.  For
    a [count] that fits an [ssize_t] (32 or 64 bit), it is the error of
    [kstrtouint] when the text does not parse and [count] otherwise, the
    same whether the start or stop it asked for succeeded, failed or was not
    needed; and a write that does not parse leaves the device untouched. *)
Theorem enable_store_result_ignores_outcome
  (buffer : Type) (kstrtouint : buffer -> Z * Z)
  (run run' : task_struct) (stop stop' : task_struct -> Z)
  (ts ts' : ft5406) (buf : buffer) (count bits : Z) :
  bits = 32 \/ bits = 64 ->
  0 <= count <= SSIZE_MAX bits ->
  fst (enable_store buffer kstrtouint run stop ts buf count)
  = fst (enable_store buffer kstrtouint run' stop' ts' buf count) /\
  fst (enable_store buffer kstrtouint run stop ts buf count)
  = (if fst (kstrtouint buf) =? 0 then count else fst (kstrtouint buf)) /\
  (if fst (kstrtouint buf) =? 0 then True
   else snd (enable_store buffer kstrtouint run stop ts buf count) = ts).
Proof.
  intros _ _. unfold enable_store.
  destruct (kstrtouint buf) as [error val]. cbn [fst].
  destruct (error =? 0); cbn [negb fst snd]; [|repeat split].
  destruct (Bool.eqb (enable ts) (negb (val =? 0))),
    (Bool.eqb (enable ts') (negb (val =? 0))), (val =? 0);
    cbn [negb thread set_thread];
    destruct (IS_ERR run), (IS_ERR run'), (stop (thread ts) =? 0),
      (stop' (thread ts') =? 0); cbn [negb fst]; repeat split.
Qed.

Lemma enable_store_result_ignores_outcome_witness :
  fst (enable_store Z (fun n => (0, n)) (task 2) (fun _ => -4) panel 0 2)
  = fst (enable_store Z (fun n => (0, n)) (ERR_PTR (-12)) (fun _ => 0)
           (set_enable panel false) 0 2) /\
  fst (enable_store Z (fun n => (0, n)) (task 2) (fun _ => -4) panel 0 2) = 2 /\
  True.
Proof.
  apply (enable_store_result_ignores_outcome Z (fun n => (0, n))
           (task 2) (ERR_PTR (-12)) (fun _ => -4) (fun _ => 0)
           panel (set_enable panel false) 0 2 64).
  - right. reflexivity.
  - unfold SSIZE_MAX. cbn. lia.
Defined.

(** X11: a write that parses, with a [count] that fits an [ssize_t], and
    whose start or stop, if the write needs one, succeeds hands back
    [count], and [enable_show] then reads 1 for a non-zero value and 0 for
    zero.  Only the call the write makes is assumed to succeed: the start
    when a disabled device is enabled, the stop when an enabled one is
    disabled. *)
Theorem enable_store_then_show
  (buffer : Type) (kstrtouint : buffer -> Z * Z)
  (kthread_run : task_struct) (kthread_stop : task_struct -> Z)
  (ts : ft5406) (buf : buffer) (count val bits : Z) :
  kstrtouint buf = (0, val) ->
  bits = 32 \/ bits = 64 ->
  0 <= count <= SSIZE_MAX bits ->
  (enable ts = false -> val <> 0 -> IS_ERR kthread_run = false) ->
  (enable ts = true -> val = 0 -> kthread_stop (thread ts) = 0) ->
  fst (enable_store buffer kstrtouint kthread_run kthread_stop ts buf count)
  = count /\
  enable_show
    (snd (enable_store buffer kstrtouint kthread_run kthread_stop ts buf count))
  = (if val =? 0 then 0 else 1).
Proof.
  intros Hparse _ _ Hrun Hstop. unfold enable_store, enable_show.
  rewrite Hparse. cbn [Z.eqb negb].
  destruct (enable ts) eqn:He, (Z.eqb_spec val 0) as [Hv|Hv];
    cbn [Bool.eqb negb thread set_thread set_enable enable fst snd].
  - rewrite (Hstop eq_refl Hv). cbn. auto.
  - rewrite He. auto.
  - rewrite He. auto.
  - rewrite (Hrun eq_refl Hv). cbn. auto.
Qed.

Lemma enable_store_then_show_witness :
  fst (enable_store Z (fun n => (0, n)) (task 2) (fun _ => -4)
         (set_enable panel false) 1 2) = 2 /\
  enable_show
    (snd (enable_store Z (fun n => (0, n)) (task 2) (fun _ => -4)
            (set_enable panel false) 1 2))
  = 1.
Proof.
  apply (enable_store_then_show Z (fun n => (0, n)) (task 2) (fun _ => -4)
           (set_enable panel false) 1 2 1 32).
  - reflexivity.
  - left. reflexivity.
  - unfold SSIZE_MAX. cbn. lia.
  - intros _ _. reflexivity.
  - intros H. discriminate H.
Defined.

Lemma apply_write_keeps_config (ts : ft5406) (w : sysfs_write) :
  max_x (apply_write ts w) = max_x ts /\
  max_y (apply_write ts w) = max_y ts /\
  hflip (apply_write ts w) = hflip ts /\
  vflip (apply_write ts w) = vflip ts /\
  xyswap (apply_write ts w) = xyswap ts.
Proof.
  unfold apply_write, enable_store.
  destruct (w_parse w) as [error val].
  destruct (error =? 0), (Bool.eqb (enable ts) (negb (val =? 0))),
    (val =? 0), (IS_ERR (w_run w)) eqn:Hr, (w_stop w (thread ts) =? 0);
    cbn [negb snd thread set_thread set_enable max_x max_y hflip vflip xyswap];
    rewrite ?Hr; cbn; auto.
Qed.

(** ** Probe *)

Lemma probe_success_cases
  (ENOENT ENOMEM ENODEV EPROBE_DEFER : Z) (pf : platform) :
  ENOENT <> 0 -> ENOMEM <> 0 -> ENODEV <> 0 -> EPROBE_DEFER <> 0 ->
  fst (fst (ft5406_probe ENOENT ENOMEM ENODEV EPROBE_DEFER pf)) = 0 ->
  IS_ERR (thread_handle pf) = false /\
  exists bus,
    dma pf = Some bus /\
    ((set_touchbuf pf = (0, 0) /\
      ft5406_probe ENOENT ENOMEM ENODEV EPROBE_DEFER pf
      = (0, Some (mk_device (probed_ts pf) dma_base bus true),
         [input_allocate_device; dma_zalloc_coherent] ++ probed_tail pf))
     \/
     (exists touchbuf,
        set_touchbuf pf <> (0, 0) /\
        get_touchbuf pf = (0, touchbuf) /\ touchbuf <> 0 /\
        ft5406_probe ENOENT ENOMEM ENODEV EPROBE_DEFER pf
        = (0, Some (mk_device (probed_ts pf)
                      (mapped_base (Z.land touchbuf (Z.lnot 0xc0000000)))
                      0 true),
           [input_allocate_device; dma_zalloc_coherent; dma_free_coherent;
            ioremap (Z.land touchbuf (Z.lnot 0xc0000000))]
           ++ probed_tail pf))).
Proof.
  intros H1 H2 H3 H4. unfold ft5406_probe.
  destruct (fw_node pf); cbn [negb]; [|cbn; lia].
  destruct (fw pf); cbn [negb]; [|cbn; lia].
  destruct (ts_alloc pf); cbn [negb]; [|cbn; lia].
  destruct (input_alloc pf); cbn [negb]; [|cbn; lia].
  cbn [dev ts_base bus_addr input_dev].
  destruct (dma pf) as [bus|] eqn:Hdma.
  2:{ unfold probe_out. cbn. lia. }
  destruct (set_touchbuf pf) as [e1 t1].
  destruct (Z.eqb_spec e1 0) as [He1|He1], (Z.eqb_spec t1 0) as [Ht1|Ht1];
    cbn [negb orb].
  1:{ subst e1 t1. unfold probe_finish.
      cbn [dev ts_base bus_addr input_dev].
      destruct (Z.eqb_spec (register_error pf) 0); cbn [negb];
        [|unfold probe_out; cbn [dev ts_base bus_addr input_dev fst snd];
          destruct (negb (bus =? 0)); cbn; intros; contradiction].
      destruct (Z.eqb_spec (sysfs_error pf) 0); cbn [negb];
        [|unfold probe_out; cbn [dev ts_base bus_addr input_dev fst snd];
          destruct (negb (bus =? 0)); cbn; intros; contradiction].
      cbn [thread set_thread dev].
      destruct (IS_ERR (thread_handle pf)) eqn:Herr;
        [unfold probe_out; cbn [dev ts_base bus_addr input_dev fst snd];
         destruct (negb (bus =? 0)); cbn; lia|].
      intros _. split; [reflexivity|]. exists bus. split; [reflexivity|].
      left. split; reflexivity. }
  all: unfold probe_get_touchbuf;
    destruct (get_touchbuf pf) as [e2 t2];
    destruct (Z.eqb_spec e2 0) as [He2|He2]; cbn [negb];
      [|unfold probe_out; cbn; intros; contradiction];
    destruct (Z.eqb_spec t2 0) as [Ht2|Ht2];
      [unfold probe_out; cbn; lia|];
    destruct (io_map pf); cbn [negb]; [|unfold probe_out; cbn; lia];
    unfold probe_finish;
    cbn [dev ts_base bus_addr input_dev];
    destruct (Z.eqb_spec (register_error pf) 0); cbn [negb];
      [|unfold probe_out; cbn; intros; contradiction];
    destruct (Z.eqb_spec (sysfs_error pf) 0); cbn [negb];
      [|unfold probe_out; cbn; intros; contradiction];
    cbn [thread set_thread dev];
    destruct (IS_ERR (thread_handle pf)) eqn:Herr;
      [unfold probe_out; cbn; lia|];
    intros _; split; [reflexivity|]; exists bus; split; [reflexivity|];
    right; exists t2; subst e2;
    (split; [congruence|]); split; [reflexivity|]; split; [assumption|];
    reflexivity.
Qed.

Lemma made_app c a b : made c (a ++ b) = (made c a + made c b)%nat.
Proof. unfold made. now rewrite filter_app, length_app. Qed.

Lemma mappings_app a b : mappings (a ++ b) = (mappings a + mappings b)%nat.
Proof. unfold mappings. now rewrite filter_app, length_app. Qed.

Lemma stops_app a b : stops (a ++ b) = (stops a + stops b)%nat.
Proof. unfold stops. now rewrite filter_app, length_app. Qed.

(** X13: a probe returns 0 only with everything in place: the device
    enabled, a thread handle that is no error pointer, the input device
    allocated and registered once, the sysfs group created once, the thread
    started once, ten slots declared, and a buffer to poll. *)
Theorem probe_success_state
  (ENOENT ENOMEM ENODEV EPROBE_DEFER : Z) (pf : platform) :
  ENOENT <> 0 -> ENOMEM <> 0 -> ENODEV <> 0 -> EPROBE_DEFER <> 0 ->
  fst (fst (ft5406_probe ENOENT ENOMEM ENODEV EPROBE_DEFER pf)) = 0 ->
  exists d tr,
    ft5406_probe ENOENT ENOMEM ENODEV EPROBE_DEFER pf = (0, Some d, tr) /\
    enable (dev d) = true /\
    IS_ERR (thread (dev d)) = false /\
    input_dev d = true /\
    is_null (ts_base d) = false /\
    made input_register_device tr = 1%nat /\
    made sysfs_create_group tr = 1%nat /\
    made kthread_run tr = 1%nat /\
    In (input_mt_init_slots MAXIMUM_SUPPORTED_POINTS) tr.
Proof.
  intros H1 H2 H3 H4 H0.
  destruct (probe_success_cases _ _ _ _ pf H1 H2 H3 H4 H0)
    as (Herr & bus & Hdma & [[Hset ->] | (t & Hset & Hget & Ht & ->)]).
  - eexists _, _. split; [reflexivity|].
    cbn [dev enable thread probed_ts set_thread set_enable input_dev
           ts_base is_null].
    rewrite made_app. repeat split; try assumption; try reflexivity.
    apply in_or_app. right. cbn. tauto.
  - eexists _, _. split; [reflexivity|].
    cbn [dev enable thread probed_ts set_thread set_enable input_dev
           ts_base is_null].
    rewrite !made_app. repeat split; try assumption; try reflexivity.
    apply in_or_app. right. cbn. tauto.
Qed.

Lemma probe_success_state_witness :
  exists d tr,
    ft5406_probe 2 12 19 517 platform_ok = (0, Some d, tr) /\
    enable (dev d) = true /\
    IS_ERR (thread (dev d)) = false /\
    input_dev d = true /\
    is_null (ts_base d) = false /\
    made input_register_device tr = 1%nat /\
    made sysfs_create_group tr = 1%nat /\
    made kthread_run tr = 1%nat /\
    In (input_mt_init_slots MAXIMUM_SUPPORTED_POINTS) tr.
Proof.
  apply (probe_success_state 2 12 19 517 platform_ok);
    try discriminate. reflexivity.
Defined.

(** X14: after a probe that returned 0, [ft5406_remove] gives back exactly
    what the probe still holds: over probe and remove together every
    coherent buffer is freed once, every mapping unmapped once, the sysfs
    group removed once, the thread stopped once and the input device
    unregistered once.  (A coherent buffer is recognised by its non-zero bus
    address.) *)
Theorem probe_then_remove_balanced
  (ENOENT ENOMEM ENODEV EPROBE_DEFER : Z) (pf : platform)
  (d : ft5406_device) (tr : list kernel_call) :
  ENOENT <> 0 -> ENOMEM <> 0 -> ENODEV <> 0 -> EPROBE_DEFER <> 0 ->
  (forall bus, dma pf = Some bus -> bus <> 0) ->
  ft5406_probe ENOENT ENOMEM ENODEV EPROBE_DEFER pf = (0, Some d, tr) ->
  made dma_zalloc_coherent (tr ++ ft5406_remove d)
  = made dma_free_coherent (tr ++ ft5406_remove d) /\
  mappings (tr ++ ft5406_remove d) = made iounmap (tr ++ ft5406_remove d) /\
  made sysfs_create_group (tr ++ ft5406_remove d)
  = made sysfs_remove_group (tr ++ ft5406_remove d) /\
  made kthread_run (tr ++ ft5406_remove d) = stops (tr ++ ft5406_remove d) /\
  made input_allocate_device (tr ++ ft5406_remove d)
  = made input_unregister_device (tr ++ ft5406_remove d).
Proof.
  intros H1 H2 H3 H4 Hbus Hp.
  assert (H0 : fst (fst (ft5406_probe ENOENT ENOMEM ENODEV EPROBE_DEFER pf))
               = 0) by now rewrite Hp.
  destruct (probe_success_cases _ _ _ _ pf H1 H2 H3 H4 H0)
    as (Herr & bus & Hdma & [[Hset Heq] | (t & Hset & Hget & Ht & Heq)]);
    rewrite Heq in Hp; injection Hp as <- <-;
    unfold ft5406_remove;
    cbn [dev enable thread probed_ts set_thread set_enable input_dev
           ts_base bus_addr is_null Z.eqb negb].
  - specialize (Hbus bus Hdma). apply Z.eqb_neq in Hbus. rewrite Hbus.
    cbn [negb]. rewrite !made_app, !mappings_app, !stops_app.
    repeat split; reflexivity.
  - rewrite !made_app, !mappings_app, !stops_app.
    repeat split; reflexivity.
Qed.

Lemma probe_then_remove_balanced_witness :
  made dma_zalloc_coherent (trace_fallback ++ ft5406_remove device_fallback)
  = made dma_free_coherent (trace_fallback ++ ft5406_remove device_fallback) /\
  mappings (trace_fallback ++ ft5406_remove device_fallback)
  = made iounmap (trace_fallback ++ ft5406_remove device_fallback) /\
  made sysfs_create_group (trace_fallback ++ ft5406_remove device_fallback)
  = made sysfs_remove_group (trace_fallback ++ ft5406_remove device_fallback) /\
  made kthread_run (trace_fallback ++ ft5406_remove device_fallback)
  = stops (trace_fallback ++ ft5406_remove device_fallback) /\
  made input_allocate_device (trace_fallback ++ ft5406_remove device_fallback)
  = made input_unregister_device
      (trace_fallback ++ ft5406_remove device_fallback).
Proof.
  apply (probe_then_remove_balanced 2 12 19 517 platform_fallback);
    try discriminate.
  - intros bus H. injection H as <-. discriminate.
  - reflexivity.
Defined.

(** X15: after a probe that returned 0 the screen size is the devicetree
    value cut to 16 bits, or 800 x 480 when the property is missing, and
    each orientation flag is the devicetree value cut to 8 bits, or 0: a
    flag written as 256 reads as off. *)
Theorem probe_config_fields
  (ENOENT ENOMEM ENODEV EPROBE_DEFER : Z) (pf : platform)
  (d : ft5406_device) (tr : list kernel_call) :
  ENOENT <> 0 -> ENOMEM <> 0 -> ENODEV <> 0 -> EPROBE_DEFER <> 0 ->
  ft5406_probe ENOENT ENOMEM ENODEV EPROBE_DEFER pf = (0, Some d, tr) ->
  max_x (dev d)
  = match dt_size_x pf with Some v => v mod 65536 | None => 800 end /\
  max_y (dev d)
  = match dt_size_y pf with Some v => v mod 65536 | None => 480 end /\
  hflip (dev d)
  = match dt_inverted_x pf with Some v => v mod 256 | None => 0 end /\
  vflip (dev d)
  = match dt_inverted_y pf with Some v => v mod 256 | None => 0 end /\
  xyswap (dev d)
  = match dt_swapped_x_y pf with Some v => v mod 256 | None => 0 end.
Proof.
  intros H1 H2 H3 H4 Hp.
  assert (H0 : fst (fst (ft5406_probe ENOENT ENOMEM ENODEV EPROBE_DEFER pf))
               = 0) by now rewrite Hp.
  destruct (probe_success_cases _ _ _ _ pf H1 H2 H3 H4 H0)
    as (Herr & bus & Hdma & [[Hset Heq] | (t & Hset & Hget & Ht & Heq)]);
    rewrite Heq in Hp; injection Hp as <- <-;
    repeat split; reflexivity.
Qed.

Lemma probe_config_fields_witness :
  max_x (dev device_fallback) = 800 /\
  max_y (dev device_fallback) = 480 /\
  hflip (dev device_fallback) = 256 mod 256 /\
  vflip (dev device_fallback) = 1 mod 256 /\
  xyswap (dev device_fallback) = 0.
Proof.
  apply (probe_config_fields 2 12 19 517 platform_fallback device_fallback
           trace_fallback); try discriminate.
  reflexivity.
Defined.

Lemma apply_writes_keeps_config (ws : list sysfs_write) :
  forall ts,
    max_x (apply_writes ts ws) = max_x ts /\
    max_y (apply_writes ts ws) = max_y ts /\
    hflip (apply_writes ts ws) = hflip ts /\
    vflip (apply_writes ts ws) = vflip ts /\
    xyswap (apply_writes ts ws) = xyswap ts.
Proof.
  induction ws as [|w ws IH]; intros ts; cbn [apply_writes fold_left].
  - repeat split.
  - fold (apply_writes (apply_write ts w) ws).
    destruct (IH (apply_write ts w)) as (-> & -> & -> & -> & ->).
    apply apply_write_keeps_config.
Qed.

Lemma raw_in_screen_ext (ts ts' : ft5406) (p : ft5406_touch) :
  max_x ts' = max_x ts -> max_y ts' = max_y ts ->
  raw_in_screen ts' p = raw_in_screen ts p.
Proof.
  unfold raw_in_screen. now intros -> ->.
Qed.

(** X16: the positions the thread reports stay inside the ranges the probe
    declared.  After a probe that returned 0, and after any writes to the
    enable attribute, an iteration on a frame whose down and contact records
    have raw positions on the screen reports only x values in [0, mx) and y
    values in [0, my), where 0..mx and 0..my are the ranges the probe gave to
    [input_set_abs_params]. *)
Theorem positions_within_declared_range
  (ENOENT ENOMEM ENODEV EPROBE_DEFER : Z) (pf : platform)
  (d : ft5406_device) (tr : list kernel_call) (ws : list sysfs_write)
  (known_ids : Z) (regs : ft5406_regs)
  (known_ids' : Z) (calls : list input_call) :
  ENOENT <> 0 -> ENOMEM <> 0 -> ENODEV <> 0 -> EPROBE_DEFER <> 0 ->
  ft5406_probe ENOENT ENOMEM ENODEV EPROBE_DEFER pf = (0, Some d, tr) ->
  ft5406_cycle (apply_writes (dev d) ws) known_ids regs
  = Some (known_ids', calls) ->
  forallb (raw_in_screen (dev d)) (observations regs) = true ->
  exists mx my,
    In (input_set_abs_params ABS_MT_POSITION_X 0 mx) tr /\
    In (input_set_abs_params ABS_MT_POSITION_Y 0 my) tr /\
    Forall (fun v => 0 <= v < mx) (reported_abs ABS_MT_POSITION_X calls) /\
    Forall (fun v => 0 <= v < my) (reported_abs ABS_MT_POSITION_Y calls).
Proof.
  intros H1 H2 H3 H4 Hp Hc Hraw.
  assert (Hdecl :
    In (input_set_abs_params ABS_MT_POSITION_X 0
          (if negb (xyswap (dev d) =? 0)
           then max_y (dev d) else max_x (dev d))) tr /\
    In (input_set_abs_params ABS_MT_POSITION_Y 0
          (if negb (xyswap (dev d) =? 0)
           then max_x (dev d) else max_y (dev d))) tr).
  { assert (H0 : fst (fst (ft5406_probe ENOENT ENOMEM ENODEV EPROBE_DEFER pf))
                 = 0) by now rewrite Hp.
    destruct (probe_success_cases _ _ _ _ pf H1 H2 H3 H4 H0)
      as (Herr & bus & Hdma & [[Hset Heq] | (t & Hset & Hget & Ht & Heq)]);
      rewrite Heq in Hp; injection Hp as <- <-;
      cbn [dev]; unfold probed_tail; cbn [app In]; split;
      repeat (try (left; reflexivity); right). }
  set (ts := apply_writes (dev d) ws) in *.
  destruct (apply_writes_keeps_config ws (dev d))
    as (Hmx & Hmy & _ & _ & Hsw).
  fold ts in Hmx, Hmy, Hsw.
  assert (Hraw' : forallb (raw_in_screen ts) (observations regs) = true).
  { rewrite forallb_forall in *. intros p Hin.
    rewrite (raw_in_screen_ext (dev d) ts) by assumption. now apply Hraw. }
  destruct (cycle_positions_on_screen _ _ _ _ _ Hc Hraw') as [HX HY].
  rewrite Hmx, Hmy, Hsw in HX, HY.
  exists (if negb (xyswap (dev d) =? 0)
          then max_y (dev d) else max_x (dev d)),
         (if negb (xyswap (dev d) =? 0)
          then max_x (dev d) else max_y (dev d)).
  tauto.
Qed.

Lemma positions_within_declared_range_witness :
  exists mx my,
    In (input_set_abs_params ABS_MT_POSITION_X 0 mx) trace_ok /\
    In (input_set_abs_params ABS_MT_POSITION_Y 0 my) trace_ok /\
    Forall (fun v => 0 <= v < mx)
      (reported_abs ABS_MT_POSITION_X
         [ input_mt_slot 3;
           input_mt_report_slot_state MT_TOOL_FINGER true;
           input_report_abs ABS_MT_POSITION_X 100;
           input_report_abs ABS_MT_POSITION_Y 200;
           input_mt_report_pointer_emulation true; input_sync ]) /\
    Forall (fun v => 0 <= v < my)
      (reported_abs ABS_MT_POSITION_Y
         [ input_mt_slot 3;
           input_mt_report_slot_state MT_TOOL_FINGER true;
           input_report_abs ABS_MT_POSITION_X 100;
           input_report_abs ABS_MT_POSITION_Y 200;
           input_mt_report_pointer_emulation true; input_sync ]).
Proof.
  apply (positions_within_declared_range 2 12 19 517 platform_ok device_ok
           trace_ok sample_writes 0 frame_down3 8); try discriminate.
  - reflexivity.
  - reflexivity.
  - reflexivity.
Defined.

(** X12: a probe that returns a non-zero code gives back what it took:
    as many frees as coherent buffers, as many unmaps as mappings, the
    sysfs group removed if it was created, no thread left running, and the
    input device, once allocated, unregistered.  (A coherent buffer is
    recognised by its non-zero bus address.) *)
Theorem failed_probe_releases
  (ENOENT ENOMEM ENODEV EPROBE_DEFER : Z) (pf : platform) :
  (forall bus, dma pf = Some bus -> bus <> 0) ->
  fst (fst (ft5406_probe ENOENT ENOMEM ENODEV EPROBE_DEFER pf)) <> 0 ->
  let tr := snd (ft5406_probe ENOENT ENOMEM ENODEV EPROBE_DEFER pf) in
  made dma_zalloc_coherent tr = made dma_free_coherent tr /\
  mappings tr = made iounmap tr /\
  made sysfs_create_group tr = made sysfs_remove_group tr /\
  made kthread_run tr = 0%nat /\
  made input_allocate_device tr = made input_unregister_device tr.
Proof.
  intros Hbus. unfold ft5406_probe.
  destruct (fw_node pf); cbn [negb]; [|cbn; tauto].
  destruct (fw pf); cbn [negb]; [|cbn; tauto].
  destruct (ts_alloc pf); cbn [negb]; [|cbn; tauto].
  destruct (input_alloc pf); cbn [negb]; [|cbn; tauto].
  cbn [dev ts_base bus_addr input_dev].
  destruct (dma pf) as [bus|] eqn:Hdma.
  2:{ unfold probe_out. cbn. tauto. }
  specialize (Hbus bus eq_refl). apply Z.eqb_neq in Hbus.
  destruct (set_touchbuf pf) as [e1 t1].
  destruct (negb (e1 =? 0) || negb (t1 =? 0)).
  - unfold probe_get_touchbuf.
    destruct (get_touchbuf pf) as [e2 t2].
    destruct (e2 =? 0); cbn [negb]; [|unfold probe_out; cbn; tauto].
    destruct (t2 =? 0); [unfold probe_out; cbn; tauto|].
    destruct (io_map pf); cbn [negb]; [|unfold probe_out; cbn; tauto].
    unfold probe_finish.
    cbn [dev ts_base bus_addr input_dev].
    destruct (register_error pf =? 0); cbn [negb];
      [|unfold probe_out; cbn; tauto].
    destruct (sysfs_error pf =? 0); cbn [negb];
      [|unfold probe_out; cbn; tauto].
    cbn [thread set_thread dev].
    destruct (IS_ERR (thread_handle pf));
      [unfold probe_out; cbn; tauto|].
    cbn. tauto.
  - unfold probe_finish.
    cbn [dev ts_base bus_addr input_dev].
    destruct (register_error pf =? 0); cbn [negb];
      [|unfold probe_out; cbn [dev ts_base bus_addr input_dev]; rewrite Hbus; cbn; tauto].
    destruct (sysfs_error pf =? 0); cbn [negb];
      [|unfold probe_out; cbn [dev ts_base bus_addr input_dev]; rewrite Hbus; cbn; tauto].
    cbn [thread set_thread dev].
    destruct (IS_ERR (thread_handle pf));
      [unfold probe_out; cbn [dev ts_base bus_addr input_dev]; rewrite Hbus; cbn; tauto|].
    cbn. tauto.
Qed.

Lemma failed_probe_releases_witness :
  let tr := snd (ft5406_probe 2 12 19 517 platform_no_thread) in
  made dma_zalloc_coherent tr = made dma_free_coherent tr /\
  mappings tr = made iounmap tr /\
  made sysfs_create_group tr = made sysfs_remove_group tr /\
  made kthread_run tr = 0%nat /\
  made input_allocate_device tr = made input_unregister_device tr.
Proof.
  apply (failed_probe_releases 2 12 19 517 platform_no_thread).
  - intros bus H. injection H as <-. discriminate.
  - discriminate.
Defined.

Lemma apply_write_handle_origin (ts : ft5406) (w : sysfs_write)
  (hs : list task_struct) :
  (enable ts = true -> IS_ERR (thread ts) = false /\ In (thread ts) hs) ->
  enable (apply_write ts w) = true ->
  IS_ERR (thread (apply_write ts w)) = false /\
  In (thread (apply_write ts w)) (hs ++ [w_run w]).
Proof.
  unfold apply_write, enable_store. intros Hinv.
  destruct (w_parse w) as [error val].
  destruct (error =? 0), (enable ts) eqn:He, (val =? 0),
    (IS_ERR (w_run w)) eqn:Hr, (w_stop w (thread ts) =? 0);
    cbn [Bool.eqb negb snd thread enable set_thread set_enable].
  all: rewrite ?Hr, ?He.
  all: cbn [Bool.eqb negb snd thread enable set_thread set_enable].
  all: intros Hen; try discriminate Hen; try (exfalso; congruence).
  all: try (destruct (Hinv eq_refl) as [Herr Hin];
            split; [exact Herr | apply in_or_app; left; exact Hin]).
  all: split; [exact Hr | apply in_or_app; right; left; reflexivity].
Qed.

Lemma apply_writes_handle_origin (ws : list sysfs_write) :
  forall ts hs,
    (enable ts = true -> IS_ERR (thread ts) = false /\ In (thread ts) hs) ->
    enable (apply_writes ts ws) = true ->
    IS_ERR (thread (apply_writes ts ws)) = false /\
    In (thread (apply_writes ts ws)) (hs ++ map w_run ws).
Proof.
  induction ws as [|w ws IH]; intros ts hs Hinv Hen;
    cbn [apply_writes fold_left map] in *.
  - rewrite app_nil_r. now apply Hinv.
  - fold (apply_writes (apply_write ts w) ws) in *.
    change (w_run w :: map w_run ws) with ([w_run w] ++ map w_run ws).
    rewrite app_assoc.
    apply IH; [|assumption].
    now apply apply_write_handle_origin.
Qed.

(** X17: whatever is written to the enable attribute after a probe that
    returned 0, and whether the starts and stops asked for succeed or fail,
    [ft5406_remove] never hands an error pointer to [kthread_stop]: the
    handle it stops is one that [kthread_run] gave, to the probe or to one
    of the writes, and that is no error pointer.  (Nothing is said on
    whether that thread still runs: a handle whose stop failed is kept.) *)
Theorem remove_stops_a_real_thread
  (ENOENT ENOMEM ENODEV EPROBE_DEFER : Z) (pf : platform)
  (d : ft5406_device) (tr : list kernel_call)
  (ws : list sysfs_write) (t : task_struct) :
  ENOENT <> 0 -> ENOMEM <> 0 -> ENODEV <> 0 -> EPROBE_DEFER <> 0 ->
  ft5406_probe ENOENT ENOMEM ENODEV EPROBE_DEFER pf = (0, Some d, tr) ->
  In (kthread_stop t)
    (ft5406_remove
       (mk_device (apply_writes (dev d) ws)
          (ts_base d) (bus_addr d) (input_dev d))) ->
  IS_ERR t = false /\
  (t = thread_handle pf \/ In t (map w_run ws)).
Proof.
  intros H1 H2 H3 H4 Hp Hin.
  assert (H0 : fst (fst (ft5406_probe ENOENT ENOMEM ENODEV EPROBE_DEFER pf))
               = 0) by now rewrite Hp.
  assert (Hinv : enable (dev d) = true ->
                 IS_ERR (thread (dev d)) = false /\
                 In (thread (dev d)) [thread_handle pf]).
  { destruct (probe_success_cases _ _ _ _ pf H1 H2 H3 H4 H0)
      as (Herr & bus & Hdma & [[Hset Heq] | (x & Hset & Hget & Ht & Heq)]);
      rewrite Heq in Hp; injection Hp as <- <-; intros _;
      (split; [exact Herr | left; reflexivity]). }
  pose proof (apply_writes_handle_origin ws (dev d) _ Hinv) as Hkeep.
  assert (Hgoal : forall h,
             IS_ERR h = false /\ In h ([thread_handle pf] ++ map w_run ws) ->
             IS_ERR h = false /\
             (h = thread_handle pf \/ In h (map w_run ws))).
  { intros h [He [Hh|Hh]]; split; auto. }
  unfold ft5406_remove in Hin. cbn [dev bus_addr ts_base input_dev] in Hin.
  destruct (enable (apply_writes (dev d) ws)).
  - destruct (negb (bus_addr d =? 0)), (negb (is_null (ts_base d))),
      (input_dev d); cbn in Hin;
      repeat (destruct Hin as [Hin|Hin];
              [try discriminate; injection Hin as <-;
               now apply Hgoal, Hkeep|]);
      contradiction.
  - destruct (negb (bus_addr d =? 0)), (negb (is_null (ts_base d))),
      (input_dev d); cbn in Hin;
      repeat (destruct Hin as [Hin|Hin]; [discriminate|]);
      contradiction.
Qed.

Lemma remove_stops_a_real_thread_witness :
  In (kthread_stop (task 9))
    (ft5406_remove
       (mk_device (apply_writes (dev device_ok) sample_restart)
          (ts_base device_ok) (bus_addr device_ok) (input_dev device_ok))) /\
  IS_ERR (task 9) = false /\
  (task 9 = thread_handle platform_ok \/
   In (task 9) (map w_run sample_restart)).
Proof.
  split; [right; left; reflexivity|].
  apply (remove_stops_a_real_thread 2 12 19 517 platform_ok device_ok
           trace_ok sample_restart (task 9)); try discriminate.
  - reflexivity.
  - right. left. reflexivity.
Defined.

Lemma clear_alias_bits (t : Z) :
  0 <= t < 2 ^ 32 -> 0 <= Z.land t (Z.lnot 0xc0000000) < 2 ^ 30.
Proof.
  intros Ht.
  assert (Heq : Z.land t (Z.lnot 0xc0000000) = t mod 2 ^ 30).
  { apply Z.bits_inj'. intros n Hn.
    rewrite Z.land_spec, Z.lnot_spec by assumption.
    change 0xc0000000 with (Z.shiftl 3 30).
    rewrite Z.shiftl_spec by assumption.
    destruct (Z.lt_ge_cases n 30) as [Hlo|Hhi].
    - rewrite Z.mod_pow2_bits_low by assumption.
      rewrite (Z.testbit_neg_r 3) by lia. apply andb_true_r.
    - rewrite Z.mod_pow2_bits_high by lia.
      assert (Hc : n = 30 \/ n = 31 \/ 32 <= n) by lia.
      destruct Hc as [-> | [-> | Hbig]].
      + apply andb_false_r.
      + apply andb_false_r.
      + rewrite <- (Z.mod_small t (2 ^ 32)) by assumption.
        rewrite Z.mod_pow2_bits_high by lia. reflexivity. }
  rewrite Heq. apply Z.mod_pos_bound. reflexivity.
Qed.

(** X18: where the polled buffer comes from.  After a probe that returned
    0 the buffer is either the coherent one the firmware accepted, kept with
    its bus address, or the firmware's own buffer, mapped at its address
    with the two top bits cleared, hence below 2^30, and with no bus address
    kept. *)
Theorem probed_buffer_origin
  (ENOENT ENOMEM ENODEV EPROBE_DEFER : Z) (pf : platform)
  (d : ft5406_device) (tr : list kernel_call) :
  ENOENT <> 0 -> ENOMEM <> 0 -> ENODEV <> 0 -> EPROBE_DEFER <> 0 ->
  0 <= snd (get_touchbuf pf) < 2 ^ 32 ->
  ft5406_probe ENOENT ENOMEM ENODEV EPROBE_DEFER pf = (0, Some d, tr) ->
  match ts_base d with
  | dma_base =>
      dma pf = Some (bus_addr d) /\ set_touchbuf pf = (0, 0) /\
      made dma_free_coherent tr = 0%nat
  | mapped_base a =>
      0 <= a < 2 ^ 30 /\ bus_addr d = 0 /\
      set_touchbuf pf <> (0, 0) /\
      made dma_zalloc_coherent tr = made dma_free_coherent tr
  | no_base => False
  end.
Proof.
  intros H1 H2 H3 H4 Hrange Hp.
  assert (H0 : fst (fst (ft5406_probe ENOENT ENOMEM ENODEV EPROBE_DEFER pf))
               = 0) by now rewrite Hp.
  destruct (probe_success_cases _ _ _ _ pf H1 H2 H3 H4 H0)
    as (Herr & bus & Hdma & [[Hset Heq] | (x & Hset & Hget & Ht & Heq)]);
    rewrite Heq in Hp; injection Hp as <- <-; cbn [ts_base bus_addr].
  - repeat split; assumption || reflexivity.
  - rewrite Hget in Hrange. cbn [snd] in Hrange.
    split; [now apply clear_alias_bits|].
    repeat split; assumption || reflexivity.
Qed.

Lemma probed_buffer_origin_witness :
  0 <= 0x1e000000 < 2 ^ 30 /\ bus_addr device_fallback = 0 /\
  set_touchbuf platform_fallback <> (0, 0) /\
  made dma_zalloc_coherent trace_fallback
  = made dma_free_coherent trace_fallback.
Proof.
  apply (probed_buffer_origin 2 12 19 517 platform_fallback device_fallback
           trace_fallback); try discriminate.
  - cbn. lia.
  - reflexivity.
Defined.

(** * The IQaudIO codec board *)

(** X19: [hw_params] accepts exactly the seven rates 8000, 16000, 32000,
    48000, 96000, 44100 and 88200; for every other rate it returns
    [-EINVAL] and leaves [pll_out] as it was. *)
Theorem hw_params_supported_rates
  (c90 c98 EINVAL pll_out samplerate : Z) :
  EINVAL <> 0 ->
  (fst (Iqaudio.snd_rpi_iqaudio_codec_hw_params c90 c98 EINVAL
          pll_out samplerate) = 0
   <-> In samplerate Iqaudio.supported_rates) /\
  (~ In samplerate Iqaudio.supported_rates ->
   Iqaudio.snd_rpi_iqaudio_codec_hw_params c90 c98 EINVAL pll_out samplerate
   = (- EINVAL, pll_out)).
Proof.
  intros He. unfold Iqaudio.snd_rpi_iqaudio_codec_hw_params,
    Iqaudio.supported_rates. cbn [In].
  destruct ((samplerate =? 8000) || (samplerate =? 16000)
            || (samplerate =? 32000) || (samplerate =? 48000)
            || (samplerate =? 96000)) eqn:Ha;
    [|destruct ((samplerate =? 44100) || (samplerate =? 88200)) eqn:Hb];
    cbn [fst];
    rewrite ?orb_true_iff, ?orb_false_iff, ?Z.eqb_eq, ?Z.eqb_neq in *.
  - split; [split; [intros _; lia | reflexivity] | intros Hn; exfalso; lia].
  - split; [split; [intros _; lia | reflexivity] | intros Hn; exfalso; lia].
  - split; [split; [intros H0; lia | intros Hin; exfalso; lia] | reflexivity].
Qed.

Lemma hw_params_supported_rates_witness :
  (fst (Iqaudio.snd_rpi_iqaudio_codec_hw_params 90316800 98304000 22
          90316800 22050) = 0
   <-> In 22050 Iqaudio.supported_rates) /\
  (~ In 22050 Iqaudio.supported_rates ->
   Iqaudio.snd_rpi_iqaudio_codec_hw_params 90316800 98304000 22
     90316800 22050
   = (- 22, 90316800)).
Proof.
  apply (hw_params_supported_rates 90316800 98304000 22 90316800 22050).
  discriminate.
Defined.

(** X20: the PLL frequency asked for at power up fits the configured rate.
    With the two [DA7213_PLL_FREQ_OUT] constants at the values their names
    give, after [hw_params] has accepted a rate, a power-up event makes one
    [snd_soc_dai_set_pll] call, on the PLL source, for a frequency that is
    a whole multiple of 1024 times that rate, and returns its answer. *)
Theorem pll_request_follows_rate
  (c90 c98 EINVAL MCLK PLL : Z) (off on : Z -> bool)
  (answer : Iqaudio.dai_call -> Z) (pll_out samplerate event : Z) :
  c90 = 90316800 ->
  c98 = 98304000 ->
  In samplerate Iqaudio.supported_rates ->
  off event = false ->
  on event = true ->
  exists freq,
    snd (Iqaudio.snd_rpi_iqaudio_codec_hw_params c90 c98 EINVAL
           pll_out samplerate) = freq /\
    Iqaudio.snd_rpi_iqaudio_pll_control MCLK PLL off on answer freq event
    = (answer (Iqaudio.snd_soc_dai_set_pll 0 PLL 0 freq),
       [Iqaudio.snd_soc_dai_set_pll 0 PLL 0 freq]) /\
    (1024 * samplerate | freq).
Proof.
  intros -> -> Hin Hoff Hon.
  eexists. split; [reflexivity|]. split.
  - unfold Iqaudio.snd_rpi_iqaudio_pll_control. now rewrite Hoff, Hon.
  - cbn in Hin.
    destruct Hin as [<-|[<-|[<-|[<-|[<-|[<-|[<-|[]]]]]]]]; cbn.
    + now exists 12.
    + now exists 6.
    + now exists 3.
    + now exists 2.
    + now exists 1.
    + now exists 2.
    + now exists 1.
Qed.

Lemma pll_request_follows_rate_witness :
  exists freq,
    snd (Iqaudio.snd_rpi_iqaudio_codec_hw_params 90316800 98304000 22
           98304000 44100) = freq /\
    Iqaudio.snd_rpi_iqaudio_pll_control 0 1
      (fun e => negb (Z.land e 12 =? 0)) (fun e => negb (Z.land e 3 =? 0))
      (fun _ => 0) freq 1
    = (0, [Iqaudio.snd_soc_dai_set_pll 0 1 0 freq]) /\
    (1024 * 44100 | freq).
Proof.
  apply (pll_request_follows_rate 90316800 98304000 22 0 1
           (fun e => negb (Z.land e 12 =? 0))
           (fun e => negb (Z.land e 3 =? 0))
           (fun _ => 0) 98304000 44100 1).
  - reflexivity.
  - reflexivity.
  - cbn. tauto.
  - reflexivity.
  - reflexivity.
Defined.
